(** * The Performance Index Engine (unified_performance_index_standardized.js)

    A shallow embedding of the class [UnifiedPerformanceIndex] and the
    properties its specification states.

    Conventions of the embedding.
    - A JavaScript number is an exact rational ([Q]); a number that the code
      has passed through [Math.round] is an integer ([Z]).  Rounding error of
      binary floating point is outside the model.
    - An instant (a [Date], an ISO-8601 string, [Date.now()]) is the number of
      milliseconds since the epoch, in [Z].  One call of [calculateIndex]
      reads the clock once.
    - The calendar functions of [Date] that depend on the local time zone
      ([toDateString], the first day of a month) are variables of the section
      that holds the engine.
    - A text kept in [localStorage] is represented by the value that
      [JSON.parse] makes of it; [setItem] always succeeds. *)

From Stdlib Require Import ZArith QArith Qround Lia Lqa List Bool Ascii String Sorted Permutation.
From stdpp Require Import gmap strings.
Import ListNotations.

Local Open Scope string_scope.
Local Open Scope Z_scope.

(** ** JavaScript built-ins *)

Module JS.

(** [Math.round]: the nearest integer, a tie going up. *)
Definition Math_round (x : Q) : Z := Qfloor (x + (1 # 2))%Q.

Definition Math_min (a b : Q) : Q := if Qle_bool a b then a else b.

Definition Math_max (a b : Q) : Q := if Qle_bool a b then b else a.

(** [x.toFixed(1)] followed by [parseFloat]: one decimal, a tie going away
    from zero. *)
Definition toFixed1 (x : Q) : Q :=
  if Qle_bool 0 x
  then (inject_Z (Qfloor (x * 10 + (1 # 2))) / 10)%Q
  else (- (inject_Z (Qfloor (- x * 10 + (1 # 2))) / 10))%Q.

(** A number is truthy when it is not zero. *)
Definition truthyQ (x : Q) : bool := negb (Qeq_bool x 0).

(** [a || b] on a property holding a number, absent when [None]. *)
Definition orQ (a : option Q) (b : Q) : Q :=
  match a with
  | Some x => if truthyQ x then x else b
  | None => b
  end.

(** [a || b] on a property holding a string; the empty string is falsy. *)
Definition orS (a : option string) (b : string) : string :=
  match a with
  | Some EmptyString => b
  | Some s => s
  | None => b
  end.

Definition lowerAscii (c : ascii) : ascii :=
  let n := nat_of_ascii c in
  if ((65 <=? n) && (n <=? 90))%nat then ascii_of_nat (n + 32) else c.

Fixpoint toLowerCase (s : string) : string :=
  match s with
  | EmptyString => EmptyString
  | String c s' => String (lowerAscii c) (toLowerCase s')
  end.

(** [arr.slice(-n)]: the last [n] elements. *)
Definition sliceLast {A} (n : nat) (l : list A) : list A :=
  skipn (length l - n) l.

(** [arr.slice(0, n)]. *)
Definition sliceFirst {A} (n : nat) (l : list A) : list A := firstn n l.

(** [arr[arr.length - 1]]. *)
Definition lastElem {A} (l : list A) : option A := List.last (map Some l) None.

(** [arr.sort(cmp)]: a stable sort; [cmp a b <= 0] keeps [a] before [b]. *)
Fixpoint sortInsert {A} (cmp : A -> A -> Z) (x : A) (l : list A) : list A :=
  match l with
  | [] => [x]
  | y :: l' => if cmp x y <=? 0 then x :: y :: l' else y :: sortInsert cmp x l'
  end.

Fixpoint sort {A} (cmp : A -> A -> Z) (l : list A) : list A :=
  match l with
  | [] => []
  | x :: l' => sortInsert cmp x (sort cmp l')
  end.

(** A [Map] keeps its keys in the order of their first insertion. *)
Fixpoint mapGet {V} (k : Z) (m : list (Z * V)) : option V :=
  match m with
  | [] => None
  | (k', v) :: m' => if k =? k' then Some v else mapGet k m'
  end.

Fixpoint mapSet {V} (k : Z) (v : V) (m : list (Z * V)) : list (Z * V) :=
  match m with
  | [] => [(k, v)]
  | (k', v') :: m' => if k =? k' then (k, v) :: m' else (k', v') :: mapSet k v m'
  end.

Definition mapValues {V} (m : list (Z * V)) : list V := map snd m.

End JS.

Import JS.

(** ** Data *)

Definition msPerDay : Z := 24 * 60 * 60 * 1000.

(** A workout record as the engine reads it; [None] is a property that is
    absent.  A date property is represented by the instant it denotes. *)
Record Workout := {
  w_date : option Z;
  w_timestamp : option Z;
  w_calories : option Q;
  w_caloriesBurned : option Q;
  w_activity : option string;
  w_workoutType : option string;
  w_type : option string;
  w_heartRate : option Q;
  w_age : option Q;
  w_weight : option Q;
  w_gender : option string;
  w_duration : option Q
}.

Record Components := {
  consistency : Z;
  performance : Z;
  improvement : Z;
  variety : Z;
  intensity : Z
}.

Record Weights := {
  wt_consistency : Q;
  wt_performance : Q;
  wt_improvement : Q;
  wt_variety : Q;
  wt_intensity : Q
}.

Record LevelRange := { lv_min : Z; lv_max : Z; lv_level : string }.

Record Comparison := {
  cmp_current : Z;
  cmp_previous : Z;
  cmp_difference : Z;
  cmp_percentChange : Q;
  cmp_trend : string
}.

Record PeriodData := { weekly : option Comparison; monthly : option Comparison }.

Record Benchmarks := {
  bm_consistency : string;
  bm_performance : string;
  bm_improvement : string;
  bm_variety : string;
  bm_intensity : string
}.

Record IndexData := {
  score : Z;
  displayScore : Z;
  level : string;
  components : Components;
  trend : string;
  lastUpdated : Z;
  workoutCount : Z;
  periodData : PeriodData;
  benchmarksMet : option Benchmarks
}.

Record HistoryEntry := {
  h_score : Z;
  h_level : string;
  h_components : Components;
  h_trend : string;
  h_timestamp : Z;
  h_workoutCount : Z
}.

(** What [JSON.parse] makes of the text stored under ['workoutHistory']:
    the parse fails, or gives a value that is not an array, or gives an array,
    whose elements are records or [null]. *)
Inductive WorkoutsText :=
| WorkoutsUnparsable
| WorkoutsNotAnArray
| WorkoutsArray (l : list (option Workout)).

(** What [JSON.parse] makes of the text stored under a history key: an array
    of entries, or anything else. *)
Inductive HistoryText :=
| HistoryCorrupt
| HistoryArray (l : list HistoryEntry).

(** [localStorage], one table per family of keys: ['workoutHistory'],
    [HISTORY_KEY_userId] and [STORAGE_KEY_userId].  The three prefixes differ,
    so a key of one family is never a key of another. *)
Record LocalStorage := {
  ls_workoutHistory : option WorkoutsText;
  ls_history : gmap string HistoryText;
  ls_current : gmap string IndexData
}.

(** A thrown exception, or a value. *)
Inductive Result (A : Type) :=
| Ok (a : A)
| Throw.
Arguments Ok {A} a.
Arguments Throw {A}.

Definition bind {A B} (r : Result A) (f : A -> Result B) : Result B :=
  match r with
  | Ok a => f a
  | Throw => Throw
  end.

Notation "'let*' x ':=' r 'in' k" := (bind r (fun x => k))
  (at level 10, x name, r at level 100, k at level 200).

Fixpoint mapM {A B} (f : A -> Result B) (l : list A) : Result (list B) :=
  match l with
  | [] => Ok []
  | a :: l' => let* b := f a in let* bs := mapM f l' in Ok (b :: bs)
  end.

(** Reading a property of an array element throws when the element is
    [null]. *)
Definition deref (w : option Workout) : Result Workout :=
  match w with
  | Some r => Ok r
  | None => Throw
  end.

(** ** The constructor's constants *)

Definition STORAGE_KEY : string := "unifiedPerformanceIndex".
Definition HISTORY_KEY : string := "performanceIndexHistory".
Definition MAX_HISTORY_DAYS : Z := 90.

Definition weights : Weights := {|
  wt_consistency := 0.25;
  wt_performance := 0.25;
  wt_improvement := 0.20;
  wt_variety := 0.15;
  wt_intensity := 0.15
|}.

Definition metValues (activity : string) : option Q :=
  if String.eqb activity "running" then Some 11.0%Q
  else if String.eqb activity "cycling" then Some 8.0%Q
  else if String.eqb activity "swimming" then Some 10.0%Q
  else if String.eqb activity "weightlifting" then Some 6.0%Q
  else if String.eqb activity "boxing" then Some 12.0%Q
  else if String.eqb activity "walking" then Some 3.8%Q
  else if String.eqb activity "yoga" then Some 2.5%Q
  else None.

Definition performanceLevels : list LevelRange := [
  {| lv_min := 90; lv_max := 100; lv_level := "Elite Athlete" |};
  {| lv_min := 75; lv_max := 89; lv_level := "Advanced" |};
  {| lv_min := 60; lv_max := 74; lv_level := "Intermediate" |};
  {| lv_min := 45; lv_max := 59; lv_level := "Developing" |};
  {| lv_min := 30; lv_max := 44; lv_level := "Beginner" |};
  {| lv_min := 15; lv_max := 29; lv_level := "Getting Started" |};
  {| lv_min := 0; lv_max := 14; lv_level := "New User" |}
].

Definition Qltb (a b : Q) : bool := negb (Qle_bool b a).

(** ** Aggregator *)

(** [calculateStandardizedScore(components)] *)
Definition calculateStandardizedScore (c : Components) : Z :=
  let weightedScore :=
    (inject_Z (consistency c) * wt_consistency weights +
     inject_Z (performance c) * wt_performance weights +
     inject_Z (improvement c) * wt_improvement weights +
     inject_Z (variety c) * wt_variety weights +
     inject_Z (intensity c) * wt_intensity weights)%Q in
  Math_round (Math_max 0 (Math_min 100 weightedScore)).

(** The loop of [getStandardizedPerformanceLevel] over the table. *)
Fixpoint findLevel (score : Z) (levels : list LevelRange) : string :=
  match levels with
  | [] => "New User"
  | l :: levels' =>
      if (lv_min l <=? score) && (score <=? lv_max l) then lv_level l
      else findLevel score levels'
  end.

(** [getStandardizedPerformanceLevel(score)] *)
Definition getStandardizedPerformanceLevel (score : Z) : string :=
  findLevel score performanceLevels.

(** [getBenchmarkStatus(components)] *)
Definition getBenchmarkStatus (c : Components) : Benchmarks := {|
  bm_consistency :=
    if 80 <=? consistency c then "Excellent"
    else if 60 <=? consistency c then "Good"
    else if 40 <=? consistency c then "Fair" else "Needs Improvement";
  bm_performance :=
    if 90 <=? performance c then "Excellent"
    else if 70 <=? performance c then "Good"
    else if 50 <=? performance c then "Fair" else "Needs Improvement";
  bm_improvement :=
    if 70 <=? improvement c then "Strong Growth"
    else if 50 <=? improvement c then "Steady"
    else if 30 <=? improvement c then "Slow Growth" else "Declining";
  bm_variety :=
    if 60 <=? variety c then "Excellent"
    else if 40 <=? variety c then "Good"
    else if 20 <=? variety c then "Fair" else "Limited";
  bm_intensity :=
    if 80 <=? intensity c then "High"
    else if 60 <=? intensity c then "Moderate"
    else if 40 <=? intensity c then "Light" else "Very Light"
|}.

(** [getDefaultIndex()] *)
Definition getDefaultIndex (now : Z) : IndexData := {|
  score := 0;
  displayScore := 0;
  level := "Getting Started";
  components := {| consistency := 0; performance := 0; improvement := 50;
                   variety := 0; intensity := 0 |};
  trend := "stable";
  lastUpdated := now;
  workoutCount := 0;
  periodData := {| weekly := None; monthly := None |};
  benchmarksMet := None
|}.

(** ** Component scorers: the parts that read one record *)

(** [workout.calories || workout.caloriesBurned || 0] *)
Definition actualCalories (w : Workout) : Q :=
  orQ (w_calories w) (orQ (w_caloriesBurned w) 0).

(** [workout.date || workout.timestamp], [None] when both are absent (the
    [Date] made of it is then invalid and every comparison with it false). *)
Definition workoutDate (w : Workout) : option Z :=
  match w_date w with
  | Some d => Some d
  | None => w_timestamp w
  end.

(** [workoutDate >= cutoff] *)
Definition dateAtLeast (cutoff : Z) (w : Workout) : bool :=
  match workoutDate w with
  | Some d => cutoff <=? d
  | None => false
  end.

(** The age and gender adjustment of [getStandardizedTargetCalories], the
    statements from [let adjustment = 1.0] to the gender test. *)
Definition targetAdjustment (age : Q) (gender : string) : Q :=
  let adjustment := 1.0%Q in
  let adjustment :=
    if Qltb age 20 then (adjustment * 1.1)%Q
    else if Qltb 50 age then (adjustment * 0.9)%Q
    else if Qltb 65 age then (adjustment * 0.8)%Q
    else adjustment in
  if String.eqb (toLowerCase gender) "male" then (adjustment * 1.1)%Q
  else adjustment.

(** [getStandardizedTargetCalories(workout)] *)
Definition getStandardizedTargetCalories (w : Workout) : Z :=
  let age := orQ (w_age w) 25 in
  let weight := orQ (w_weight w) 70 in
  let gender := orS (w_gender w) "male" in
  let duration := orQ (w_duration w) 30 in
  let activity := orS (w_activity w) (orS (w_workoutType w) "running") in
  let met :=
    match metValues (toLowerCase activity) with
    | Some m => m
    | None => 7.0%Q
    end in
  let baseTarget := (met * weight * (duration / 60))%Q in
  Math_round (baseTarget * targetAdjustment age gender).

(** [estimateHeartRate(workout)] *)
Definition estimateHeartRate (w : Workout) : Z :=
  let age := orQ (w_age w) 25 in
  let activity := orS (w_activity w) (orS (w_workoutType w) "running") in
  let duration := orQ (w_duration w) 30 in
  let maxHeartRate := (220 - age)%Q in
  let a := toLowerCase activity in
  let intensityPercent :=
    if String.eqb a "running" then (0.75 + (if Qltb 30 duration then 0.1 else 0))%Q
    else if String.eqb a "cycling" then 0.70%Q
    else if String.eqb a "swimming" then 0.80%Q
    else if String.eqb a "weightlifting" then 0.65%Q
    else if String.eqb a "boxing" then 0.85%Q
    else if String.eqb a "walking" then 0.55%Q
    else if String.eqb a "yoga" then 0.45%Q
    else 0.7%Q in
  Math_round (maxHeartRate * intensityPercent).

(** [getHeartRateZoneScore(hrPercentage)] *)
Definition getHeartRateZoneScore (hrPercentage : Q) : Q :=
  if Qle_bool 50 hrPercentage && Qltb hrPercentage 60 then 20%Q
  else if Qle_bool 60 hrPercentage && Qltb hrPercentage 70 then 40%Q
  else if Qle_bool 70 hrPercentage && Qltb hrPercentage 80 then 70%Q
  else if Qle_bool 80 hrPercentage && Qltb hrPercentage 90 then 90%Q
  else if Qle_bool 90 hrPercentage then 100%Q
  else 10%Q.

(** [getAverageCalories(workouts)] *)
Definition getAverageCalories (workouts : list Workout) : Q :=
  match workouts with
  | [] => 0%Q
  | _ =>
      let totalCalories :=
        fold_left (fun sum w => (sum + actualCalories w)%Q) workouts 0%Q in
      (totalCalories / inject_Z (Z.of_nat (length workouts)))%Q
  end.

(** [workout.activity || workout.workoutType || workout.type || 'unknown'],
    in lower case. *)
Definition workoutTypeKey (w : Workout) : string :=
  toLowerCase
    (orS (w_activity w) (orS (w_workoutType w) (orS (w_type w) "unknown"))).

(** ** Component scorers *)

(** The instant thirty days before [now], as [setDate(getDate() - 30)]
    gives it when the offset of local time is the same on both days. *)
Definition thirtyDaysAgo (now : Z) : Z := now - 30 * msPerDay.

(** The score of [calculateStandardizedConsistency] for
    [workoutsLast30Days = n]. *)
Definition consistencyOfCount (n : nat) : Q :=
  let workoutsLast30Days := inject_Z (Z.of_nat n) in
  let consistencyScore := (workoutsLast30Days / 30 * 100)%Q in
  if (n <? 3)%nat then (workoutsLast30Days / 3 * 10)%Q
  else Math_min 100 consistencyScore.

(** The records that the filter of [calculateStandardizedConsistency] (and
    of [calculateStandardizedVariety]) keeps. *)
Definition recentWorkouts (now : Z) (ws : list Workout) : list Workout :=
  List.filter (dateAtLeast (thirtyDaysAgo now)) ws.

(** [calculateStandardizedConsistency(workoutHistory)]; the callback of
    [filter] reads a property of every element, so a [null] element throws. *)
Definition calculateStandardizedConsistency
    (now : Z) (workoutHistory : list (option Workout)) : Result Q :=
  let* ws := mapM deref workoutHistory in
  Ok (consistencyOfCount (length (recentWorkouts now ws))).

(** [calculateStandardizedPerformance(workoutHistory)] *)
Definition calculateStandardizedPerformance
    (workoutHistory : list (option Workout)) : Result Q :=
  match workoutHistory with
  | [] => Ok 50%Q
  | _ =>
      let* recent := mapM deref (sliceLast 10 workoutHistory) in
      let totals :=
        fold_left
          (fun (acc : Q * Q) w =>
             ((fst acc + actualCalories w)%Q,
              (snd acc + inject_Z (getStandardizedTargetCalories w))%Q))
          recent (0%Q, 0%Q) in
      let totalActualCalories := fst totals in
      let totalTargetCalories := snd totals in
      if Qeq_bool totalTargetCalories 0 then Ok 50%Q
      else
        let performanceRatio :=
          (totalActualCalories / totalTargetCalories * 100)%Q in
        Ok (Math_min 100 performanceRatio)
  end.

(** [calculateStandardizedVariety(workoutHistory)] *)
Definition calculateStandardizedVariety
    (now : Z) (workoutHistory : list (option Workout)) : Result Q :=
  let* ws := mapM deref workoutHistory in
  match recentWorkouts now ws with
  | [] => Ok 0%Q
  | recent =>
      let uniqueTypes : gset string := list_to_set (map workoutTypeKey recent) in
      let uniqueCount := inject_Z (Z.of_nat (size uniqueTypes)) in
      let maxTypes := 7%Q in
      let varietyScore := (uniqueCount / maxTypes * 100)%Q in
      Ok (Math_min 100 varietyScore)
  end.

(** [calculateStandardizedIntensity(workoutHistory)] *)
Definition calculateStandardizedIntensity
    (workoutHistory : list (option Workout)) : Result Q :=
  match workoutHistory with
  | [] => Ok 50%Q
  | _ =>
      let* recent := mapM deref (sliceLast 10 workoutHistory) in
      let totals :=
        fold_left
          (fun (acc : Q * Z) w =>
             let heartRate :=
               orQ (w_heartRate w) (inject_Z (estimateHeartRate w)) in
             let age := orQ (w_age w) 25 in
             let maxHeartRate := (220 - age)%Q in
             if Qltb 0 heartRate && Qltb 0 maxHeartRate then
               let hrPercentage := (heartRate / maxHeartRate * 100)%Q in
               let zoneScore := getHeartRateZoneScore hrPercentage in
               ((fst acc + zoneScore)%Q, snd acc + 1)
             else acc)
          recent (0%Q, 0) in
      let totalIntensityScore := fst totals in
      let workoutCount := snd totals in
      if workoutCount =? 0 then Ok 50%Q
      else Ok (totalIntensityScore / inject_Z workoutCount)%Q
  end.

Section Engine.

(** The calendar of the local time zone: the key of the calendar day of an
    instant ([toDateString]), and, for the month of an instant, midnight of
    its first day, of the first day of the month before, and of the last day
    of the month before ([new Date(y, m, 1)], [new Date(y, m - 1, 1)],
    [new Date(y, m, 0)]). *)
Variable toDateString : Z -> Z.
Variable currentMonthStart : Z -> Z.
Variable previousMonthStart : Z -> Z.
Variable previousMonthEnd : Z -> Z.

(** [calculateStandardizedImprovement(workoutHistory)] *)
Definition calculateStandardizedImprovement
    (now : Z) (workoutHistory : list (option Workout)) : Result Q :=
  if (length workoutHistory <? 2)%nat then Ok 50%Q
  else
    let* ws := mapM deref workoutHistory in
    let currentMonthWorkouts :=
      List.filter (dateAtLeast (currentMonthStart now)) ws in
    let previousMonthWorkouts :=
      List.filter
        (fun w =>
           match workoutDate w with
           | Some d => (previousMonthStart now <=? d) && (d <=? previousMonthEnd now)
           | None => false
           end) ws in
    match previousMonthWorkouts with
    | [] => Ok 50%Q
    | _ =>
        let currentAvg := getAverageCalories currentMonthWorkouts in
        let previousAvg := getAverageCalories previousMonthWorkouts in
        if Qeq_bool previousAvg 0 then Ok 50%Q
        else
          let improvementPercent :=
            ((currentAvg - previousAvg) / previousAvg * 100)%Q in
          let scaledImprovement := (improvementPercent / 5 * 100)%Q in
          if Qltb improvementPercent 0
          then Ok (Math_max 0 (50 + scaledImprovement))
          else Ok (Math_min 100 (50 + scaledImprovement))
    end.

(** [Math.round(Math.max(0, Math.min(100, x)))] *)
Definition roundClamp (x : Q) : Z := Math_round (Math_max 0 (Math_min 100 x)).

(** [calculateStandardizedComponents(workoutHistory, userId)] *)
Definition calculateStandardizedComponents
    (now : Z) (workoutHistory : list (option Workout)) : Result Components :=
  let* consistency := calculateStandardizedConsistency now workoutHistory in
  let* performance := calculateStandardizedPerformance workoutHistory in
  let* improvement := calculateStandardizedImprovement now workoutHistory in
  let* variety := calculateStandardizedVariety now workoutHistory in
  let* intensity := calculateStandardizedIntensity workoutHistory in
  Ok {| consistency := roundClamp consistency;
        performance := roundClamp performance;
        improvement := roundClamp improvement;
        variety := roundClamp variety;
        intensity := roundClamp intensity |}.

(** [validateMetricInputs(workoutHistory).isValid]; [None] is a value that
    is not an array. *)
Definition validateMetricInputs
    (workoutHistory : option (list (option Workout))) : bool :=
  match workoutHistory with
  | None => false
  | Some [] => true
  | Some l =>
      match lastElem l with
      | Some (Some recentWorkout) =>
          truthyQ (actualCalories recentWorkout) &&
          match workoutDate recentWorkout with
          | Some _ => true
          | None => false
          end
      | _ => false
      end
  end.

(** ** History manager *)

(** [getWorkoutHistory()]: the array stored under ['workoutHistory'], the
    empty array when nothing is stored or the text does not parse; a parsed
    value that is not an array is returned as it is ([None]). *)
Definition getWorkoutHistory (ls : LocalStorage) : option (list (option Workout)) :=
  match ls_workoutHistory ls with
  | None => Some []
  | Some WorkoutsUnparsable => Some []
  | Some WorkoutsNotAnArray => None
  | Some (WorkoutsArray l) => Some l
  end.

(** [getIndexHistory(userId, days)] *)
Definition getIndexHistory
    (ls : LocalStorage) (now : Z) (userId : string) (days : Z) : list HistoryEntry :=
  match ls_history ls !! userId with
  | Some (HistoryArray history) =>
      let cutoffDate := now - days * msPerDay in
      List.filter (fun entry => cutoffDate <? h_timestamp entry) history
  | Some HistoryCorrupt => []
  | None => []
  end.

(** One turn of the [forEach] of [dedupeDailyEntries]. *)
Definition dedupeStep
    (dailyEntries : list (Z * HistoryEntry)) (entry : HistoryEntry)
    : list (Z * HistoryEntry) :=
  let dateKey := toDateString (h_timestamp entry) in
  match mapGet dateKey dailyEntries with
  | None => mapSet dateKey entry dailyEntries
  | Some kept =>
      if h_timestamp kept <? h_timestamp entry
      then mapSet dateKey entry dailyEntries
      else dailyEntries
  end.

(** [dedupeDailyEntries(history)] *)
Definition dedupeDailyEntries (history : list HistoryEntry) : list HistoryEntry :=
  let dailyEntries := fold_left dedupeStep history [] in
  sort (fun a b => h_timestamp a - h_timestamp b) (mapValues dailyEntries).

(** The entry that [saveToHistory] pushes. *)
Definition historyEntryOf (indexData : IndexData) : HistoryEntry := {|
  h_score := score indexData;
  h_level := level indexData;
  h_components := components indexData;
  h_trend := trend indexData;
  h_timestamp := lastUpdated indexData;
  h_workoutCount := workoutCount indexData
|}.

(** The list that [saveToHistory] persists, given the list it has read. *)
Definition updatedHistory
    (now : Z) (history : list HistoryEntry) (indexData : IndexData)
    : list HistoryEntry :=
  let history := (history ++ [historyEntryOf indexData])%list in
  let cutoffDate := now - MAX_HISTORY_DAYS * msPerDay in
  let history := List.filter (fun entry => cutoffDate <? h_timestamp entry) history in
  dedupeDailyEntries history.

Definition setHistory
    (ls : LocalStorage) (userId : string) (history : list HistoryEntry)
    : LocalStorage :=
  {| ls_workoutHistory := ls_workoutHistory ls;
     ls_history := <[userId := HistoryArray history]> (ls_history ls);
     ls_current := ls_current ls |}.

(** [saveToHistory(userId, indexData)]: its return value and the store it
    leaves.  When the stored text is not an array of entries the body throws,
    the [catch] returns [false] and nothing is written. *)
Definition saveToHistory
    (ls : LocalStorage) (now : Z) (userId : string) (indexData : IndexData)
    : bool * LocalStorage :=
  match ls_history ls !! userId with
  | Some HistoryCorrupt => (false, ls)
  | Some (HistoryArray history) =>
      (true, setHistory ls userId (updatedHistory now history indexData))
  | None =>
      (true, setHistory ls userId (updatedHistory now [] indexData))
  end.

(** [saveCurrentIndex(userId, indexData)] *)
Definition saveCurrentIndex
    (ls : LocalStorage) (userId : string) (indexData : IndexData)
    : bool * LocalStorage :=
  (true,
   {| ls_workoutHistory := ls_workoutHistory ls;
      ls_history := ls_history ls;
      ls_current := <[userId := indexData]> (ls_current ls) |}).

(** [getCurrentIndex(userId)] *)
Definition getCurrentIndex (ls : LocalStorage) (userId : string) : option IndexData :=
  ls_current ls !! userId.

(** The array of entries persisted for a user, empty when the key holds
    nothing or something else. *)
Definition persistedHistory (ls : LocalStorage) (userId : string) : list HistoryEntry :=
  match ls_history ls !! userId with
  | Some (HistoryArray history) => history
  | _ => []
  end.

(** ** Trend and comparison analyzer *)

Definition sumZ (l : list Z) : Z := fold_left Z.add l 0.

Definition average (scores : list Z) : Q :=
  (inject_Z (sumZ scores) / inject_Z (Z.of_nat (length scores)))%Q.

(** [calculateTrend(userId, currentScore)] *)
Definition calculateTrend
    (ls : LocalStorage) (now : Z) (userId : string) (currentScore : Z) : string :=
  let history := getIndexHistory ls now userId 14 in
  if (length history <? 3)%nat then "stable"
  else
    let recentScores := map h_score (sliceLast 5 history) in
    let olderScores :=
      map h_score (sliceFirst (Nat.max 1 (length history - 5)) history) in
    let recentAvg := average recentScores in
    let olderAvg := average olderScores in
    let diff := (recentAvg - olderAvg)%Q in
    if Qltb 5 diff then "improving"
    else if Qltb diff (-5) then "declining"
    else "stable".

(** The entries that [compareWithPrevious] takes for the previous period. *)
Definition previousEntriesOf (now days : Z) (history : list HistoryEntry)
    : list HistoryEntry :=
  let cutoffDate := now - days * msPerDay in
  List.filter (fun entry => h_timestamp entry <? cutoffDate) history.

(** The other entries: those at or after [now - days]. *)
Definition remainderEntriesOf (now days : Z) (history : list HistoryEntry)
    : list HistoryEntry :=
  let cutoffDate := now - days * msPerDay in
  List.filter (fun entry => negb (h_timestamp entry <? cutoffDate)) history.

(** [compareWithPrevious(userId, days)]; [None] is [null]. *)
Definition compareWithPrevious
    (ls : LocalStorage) (now : Z) (userId : string) (days : Z) : option Comparison :=
  let history := getIndexHistory ls now userId (days * 2) in
  if (length history <? 2)%nat then None
  else
    let previousEntries := previousEntriesOf now days history in
    match lastElem previousEntries, lastElem history with
    | Some previousEntry, Some currentEntry =>
        let difference := h_score currentEntry - h_score previousEntry in
        let percentChange :=
          if 0 <? h_score previousEntry
          then toFixed1 (inject_Z difference / inject_Z (h_score previousEntry) * 100)
          else 0%Q in
        Some {| cmp_current := h_score currentEntry;
                cmp_previous := h_score previousEntry;
                cmp_difference := difference;
                cmp_percentChange := percentChange;
                cmp_trend :=
                  if 0 <? difference then "improving"
                  else if difference <? 0 then "declining"
                  else "stable" |}
    | _, _ => None
    end.

(** [getPeriodComparisons(userId, currentScore)] *)
Definition getPeriodComparisons
    (ls : LocalStorage) (now : Z) (userId : string) (currentScore : Z) : PeriodData :=
  {| weekly := compareWithPrevious ls now userId 7;
     monthly := compareWithPrevious ls now userId 30 |}.

(** ** The entry point *)

(** The statements of [calculateIndex] after the validation, for a history
    that is an array: the computed result and the store after the two
    writes. *)
Definition computedIndex
    (ls : LocalStorage) (now : Z) (userId : string)
    (workoutHistory : list (option Workout)) : Result (IndexData * LocalStorage) :=
  let* components := calculateStandardizedComponents now workoutHistory in
  let score := calculateStandardizedScore components in
  let level := getStandardizedPerformanceLevel score in
  let trend := calculateTrend ls now userId score in
  let periodData := getPeriodComparisons ls now userId score in
  let indexData :=
    {| score := score;
       displayScore := score;
       level := level;
       components := components;
       trend := trend;
       lastUpdated := now;
       workoutCount := Z.of_nat (length workoutHistory);
       periodData := periodData;
       benchmarksMet := Some (getBenchmarkStatus components) |} in
  let ls := snd (saveCurrentIndex ls userId indexData) in
  let ls := snd (saveToHistory ls now userId indexData) in
  Ok (indexData, ls).

(** The body of the [try] of [calculateIndex]. *)
Definition calculateIndexBody
    (ls : LocalStorage) (now : Z) (userId : string) : Result (IndexData * LocalStorage) :=
  let workoutHistory := getWorkoutHistory ls in
  if negb (validateMetricInputs workoutHistory) then Ok (getDefaultIndex now, ls)
  else
    match workoutHistory with
    | Some l => computedIndex ls now userId l
    | None => Ok (getDefaultIndex now, ls)
    end.

(** [calculateIndex(userId)]: the result and the store it leaves; the
    [catch] turns an exception of the body into the default index. *)
Definition calculateIndex
    (ls : LocalStorage) (now : Z) (userId : string) : IndexData * LocalStorage :=
  match calculateIndexBody ls now userId with
  | Ok r => r
  | Throw => (getDefaultIndex now, ls)
  end.

End Engine.

(** ** A concrete calendar: days and months of thirty days counted from the
    epoch, for the examples. *)

Definition utcDay (t : Z) : Z := t / msPerDay.

Definition emptyStorage : LocalStorage :=
  {| ls_workoutHistory := None; ls_history := ∅; ls_current := ∅ |}.

(** Months of thirty days counted from the epoch stand for the calendar
    months in the examples; none of the examples depends on them. *)
Definition monthLength : Z := 30 * msPerDay.
Definition exCurrentMonthStart (t : Z) : Z := t / monthLength * monthLength.
Definition exPreviousMonthStart (t : Z) : Z := exCurrentMonthStart t - monthLength.
Definition exPreviousMonthEnd (t : Z) : Z := exCurrentMonthStart t - msPerDay.

(** The engine on the example calendar. *)
Definition exCalculateIndex := 
  calculateIndex utcDay exCurrentMonthStart exPreviousMonthStart exPreviousMonthEnd.

Definition exComputedIndex :=
  computedIndex utcDay exCurrentMonthStart exPreviousMonthStart exPreviousMonthEnd.

(** ** Example inputs *)

(** 3 September 2025, 12:00 UTC. *)
Definition exNow : Z := 1756900800000.

Definition exWorkout (date : Z) (calories : option Q) (age : option Q) : Workout := {|
  w_date := Some date;
  w_timestamp := None;
  w_calories := calories;
  w_caloriesBurned := None;
  w_activity := Some "running";
  w_workoutType := None;
  w_type := None;
  w_heartRate := None;
  w_age := age;
  w_weight := None;
  w_gender := None;
  w_duration := Some 60%Q
|}.

Definition storageOfWorkouts (l : list (option Workout)) : LocalStorage :=
  {| ls_workoutHistory := Some (WorkoutsArray l); ls_history := ∅; ls_current := ∅ |}.


(** A subject aged 70. *)
Definition exSeniorWorkout : Workout :=
  exWorkout (exNow - msPerDay) (Some 500%Q) (Some 70%Q).

Definition exEntry (timestamp score : Z) : HistoryEntry := {|
  h_score := score;
  h_level := getStandardizedPerformanceLevel score;
  h_components := {| consistency := score; performance := score;
                     improvement := score; variety := score; intensity := score |};
  h_trend := "stable";
  h_timestamp := timestamp;
  h_workoutCount := 5
|}.

Definition storageOfHistory (userId : string) (l : list HistoryEntry) : LocalStorage :=
  {| ls_workoutHistory := None;
     ls_history := {[ userId := HistoryArray l ]};
     ls_current := ∅ |}.

(** Two snapshots, of ten and of nine days ago. *)
Definition exOldHistory : list HistoryEntry :=
  [exEntry (exNow - 10 * msPerDay) 60; exEntry (exNow - 9 * msPerDay) 66].

(** Two snapshots, of two days ago and of the day before. *)
Definition exRecentHistory : list HistoryEntry :=
  [exEntry (exNow - 2 * msPerDay) 60; exEntry (exNow - msPerDay) 66].

Definition exIndexData (timestamp score : Z) : IndexData := {|
  score := score;
  displayScore := score;
  level := getStandardizedPerformanceLevel score;
  components := {| consistency := score; performance := score;
                   improvement := score; variety := score; intensity := score |};
  trend := "stable";
  lastUpdated := timestamp;
  workoutCount := 5;
  periodData := {| weekly := None; monthly := None |};
  benchmarksMet := None
|}.

(** ** The words of the specification *)

Module Spec.

(** clamp(x, lo, hi) *)
Definition clamp (x lo hi : Q) : Q :=
  if Qltb x lo then lo else if Qltb hi x then hi else x.



(** genderAdjust: 1.1 for male, 1.0 otherwise. *)
Definition genderAdjust (gender : string) : Q :=
  if String.eqb (toLowerCase gender) "male" then 1.1%Q else 1.0%Q.



(** w: the count of records dated within the last 30 days. *)
Definition workoutsLast30Days (now : Z) (history : list (option Workout)) : nat :=
  length
    (List.filter
       (fun o => match o with
                 | Some w => dateAtLeast (thirtyDaysAgo now) w
                 | None => false
                 end) history).


(** The calendar day of an entry. *)
Definition dayOf (toDateString : Z -> Z) (e : HistoryEntry) : Z :=
  toDateString (h_timestamp e).


(** A new user: the workout history is empty and no snapshot is stored. *)
Definition newUser (ls : LocalStorage) (userId : string) : Prop :=
  getWorkoutHistory ls = Some [] /\ persistedHistory ls userId = [].

End Spec.

(** * Properties *)

(** ** Arithmetic of the built-ins *)

Lemma Qltb_lt (a b : Q) : Qltb a b = true <-> (a < b)%Q.
Proof.
  unfold Qltb. rewrite negb_true_iff. split.
  - intros H. apply Qnot_le_lt. intros Hle.
    apply Qle_bool_iff in Hle. congruence.
  - intros H. destruct (Qle_bool b a) eqn:E; [|reflexivity].
    apply Qle_bool_iff in E. exfalso. exact (Qlt_not_le _ _ H E).
Qed.

Lemma Qltb_ge (a b : Q) : Qltb a b = false <-> (b <= a)%Q.
Proof.
  unfold Qltb. rewrite negb_false_iff. apply Qle_bool_iff.
Qed.

Lemma Qle_bool_false (a b : Q) : Qle_bool a b = false <-> (b < a)%Q.
Proof.
  rewrite <- Qltb_lt. unfold Qltb. now rewrite negb_true_iff.
Qed.


Lemma Math_round_mono (x y : Q) : (x <= y)%Q -> Math_round x <= Math_round y.
Proof.
  intros H. unfold Math_round. apply Qfloor_resp_le.
  apply Qplus_le_compat; [exact H | apply Qle_refl].
Qed.

(** [Math.max(0, Math.min(100, x))] is the clamp of the specification. *)
Lemma max_min_clamp (x : Q) : (Math_max 0 (Math_min 100 x) == Spec.clamp x 0 100)%Q.
Proof.
  unfold Math_max, Math_min, Spec.clamp.
  destruct (Qle_bool 100 x) eqn:E100.
  - apply Qle_bool_iff in E100.
    assert (H0 : Qltb x 0 = false).
    { apply Qltb_ge. eapply Qle_trans; [|exact E100]. discriminate. }
    rewrite H0. simpl Qle_bool.
    destruct (Qltb 100 x) eqn:E; [reflexivity|].
    apply Qltb_ge in E. now apply Qle_antisym.
  - apply Qle_bool_false in E100.
    assert (H100 : Qltb 100 x = false).
    { apply Qltb_ge. now apply Qlt_le_weak. }
    rewrite H100.
    destruct (Qle_bool 0 x) eqn:E0.
    + apply Qle_bool_iff in E0. apply Qltb_ge in E0. rewrite E0. reflexivity.
    + apply Qle_bool_false in E0. apply Qltb_lt in E0. rewrite E0. reflexivity.
Qed.



Lemma roundClamp_mono (x y : Q) : (x <= y)%Q -> roundClamp x <= roundClamp y.
Proof.
  intros H. unfold roundClamp. apply Math_round_mono.
  rewrite !max_min_clamp. unfold Spec.clamp.
  destruct (Qltb x 0) eqn:Ex, (Qltb y 0) eqn:Ey;
    destruct (Qltb 100 x) eqn:Ex', (Qltb 100 y) eqn:Ey';
    repeat match goal with
    | E : Qltb _ _ = true |- _ => apply Qltb_lt in E
    | E : Qltb _ _ = false |- _ => apply Qltb_ge in E
    end; try apply Qle_refl; try assumption; try discriminate;
    try (exfalso; eapply Qlt_irrefl; eauto using Qlt_le_trans, Qle_lt_trans, Qlt_trans);
    try now apply Qlt_le_weak.
  all: exfalso.
  all: try (apply (Qlt_irrefl 0); eauto using Qlt_le_trans, Qle_lt_trans, Qlt_trans, Qle_trans).
Qed.

(** ** Aggregator *)







Lemma levels_contiguous :
  map (fun l => (lv_min l, lv_max l)) performanceLevels =
    [(90, 100); (75, 89); (60, 74); (45, 59); (30, 44); (15, 29); (0, 14)].
Proof. reflexivity. Qed.

(** ** Target calories *)

(** C5: for a subject older than 65 the adjustment that
    [getStandardizedTargetCalories] applies is 0.9 times the gender factor,
    and not 0.8 times it: the test [age > 50] comes first and the branch
    [age > 65] is never reached. *)
Theorem C5_age_over_65_adjusted_by_0_9 (age : Q) (gender : string) :
  (65 < age)%Q ->
  (targetAdjustment age gender == 0.9 * Spec.genderAdjust gender)%Q /\
  ~ (targetAdjustment age gender == 0.8 * Spec.genderAdjust gender)%Q.
Proof.
  intros H. unfold targetAdjustment, Spec.genderAdjust.
  assert (E20 : Qltb age 20 = false).
  { apply Qltb_ge. apply Qlt_le_weak. eapply Qlt_trans; [|exact H]. reflexivity. }
  assert (E50 : Qltb 50 age = true).
  { apply Qltb_lt. eapply Qlt_trans; [|exact H]. reflexivity. }
  rewrite E20, E50.
  destruct (String.eqb (toLowerCase gender) "male"); split;
    try reflexivity; discriminate.
Qed.

Lemma C5_witness :
  (65 < 70)%Q /\
  (targetAdjustment 70 "male" == 0.9 * Spec.genderAdjust "male")%Q /\
  ~ (targetAdjustment 70 "male" == 0.8 * Spec.genderAdjust "male")%Q.
Proof.
  split; [reflexivity|].
  apply (C5_age_over_65_adjusted_by_0_9 70 "male"). reflexivity.
Defined.

(** The target of a sixty-minute run by a subject aged 70 is computed with
    0.9; with 0.8 it would be 678. *)
Lemma senior_target :
  getStandardizedTargetCalories exSeniorWorkout = 762 /\
  Math_round (11.0 * 70 * (60 / 60) * (0.8 * 1.1))%Q = 678.
Proof. split; reflexivity. Qed.

(** ** The entry point *)

Section EntryPoint.

Variable toDateString : Z -> Z.
Variable currentMonthStart : Z -> Z.
Variable previousMonthStart : Z -> Z.
Variable previousMonthEnd : Z -> Z.

Let components_of :=
  calculateStandardizedComponents currentMonthStart previousMonthStart previousMonthEnd.
Let computed :=
  computedIndex toDateString currentMonthStart previousMonthStart previousMonthEnd.
Let index :=
  calculateIndex toDateString currentMonthStart previousMonthStart previousMonthEnd.

Lemma getIndexHistory_nil ls now userId days :
  persistedHistory ls userId = [] -> getIndexHistory ls now userId days = [].
Proof.
  unfold persistedHistory, getIndexHistory.
  destruct (ls_history ls !! userId) as [[|history]|]; try reflexivity.
  intros ->. reflexivity.
Qed.

Lemma calculateTrend_nil ls now userId s :
  persistedHistory ls userId = [] -> calculateTrend ls now userId s = "stable".
Proof.
  intros H. unfold calculateTrend. now rewrite getIndexHistory_nil.
Qed.

(** The defaults of the five scorers on an empty history. *)
Lemma components_empty now :
  components_of now [] =
    Ok {| consistency := 0; performance := 50; improvement := 50;
          variety := 0; intensity := 50 |}.
Proof. reflexivity. Qed.

(** C1, amended: for a new user, whose workout history is empty and for
    whom no snapshot is stored, [calculateIndex] returns the score 30, the
    level "Beginner" and the trend "stable". *)
Theorem C1_new_user_index ls now userId :
  Spec.newUser ls userId ->
  let r := fst (index ls now userId) in
  score r = 30 /\ level r = "Beginner" /\ trend r = "stable".
Proof.
  intros [Hw Hh]. unfold index, calculateIndex, calculateIndexBody.
  rewrite Hw. simpl.
  split; [reflexivity|]. split; [reflexivity|].
  now apply calculateTrend_nil.
Qed.



Lemma mapM_deref_skipn (l : list (option Workout)) ws n :
  mapM deref l = Ok ws -> mapM deref (skipn n l) = Ok (skipn n ws).
Proof.
  revert l ws. induction n as [|n IH]; intros l ws H; [exact H|].
  destruct l as [|[w|] l]; simpl in H.
  - injection H as <-. reflexivity.
  - destruct (mapM deref l) as [ws'|] eqn:E; simpl in H; [|discriminate].
    injection H as <-. simpl. now apply IH.
  - discriminate.
Qed.

Lemma consistency_ok now (l : list (option Workout)) ws :
  mapM deref l = Ok ws -> exists q, calculateStandardizedConsistency now l = Ok q.
Proof.
  intros H. unfold calculateStandardizedConsistency. rewrite H. simpl. eauto.
Qed.

Lemma performance_ok (l : list (option Workout)) ws :
  mapM deref l = Ok ws -> exists q, calculateStandardizedPerformance l = Ok q.
Proof.
  intros H. unfold calculateStandardizedPerformance. destruct l as [|o l']; [eauto|].
  unfold sliceLast. rewrite (mapM_deref_skipn _ _ _ H). unfold bind.
  match goal with |- context [if ?b then _ else _] => destruct b end; eauto.
Qed.

Lemma improvement_ok now (l : list (option Workout)) ws :
  mapM deref l = Ok ws ->
  exists q, calculateStandardizedImprovement currentMonthStart previousMonthStart
              previousMonthEnd now l = Ok q.
Proof.
  intros H. unfold calculateStandardizedImprovement.
  destruct (length l <? 2)%nat; [eauto|]. rewrite H. unfold bind.
  match goal with |- context [match ?x with [] => _ | _ :: _ => _ end] => destruct x end;
    [eauto|].
  repeat match goal with |- context [if ?b then _ else _] => destruct b end; eauto.
Qed.

Lemma variety_ok now (l : list (option Workout)) ws :
  mapM deref l = Ok ws -> exists q, calculateStandardizedVariety now l = Ok q.
Proof.
  intros H. unfold calculateStandardizedVariety. rewrite H. unfold bind.
  destruct (recentWorkouts now ws); eauto.
Qed.

Lemma intensity_ok (l : list (option Workout)) ws :
  mapM deref l = Ok ws -> exists q, calculateStandardizedIntensity l = Ok q.
Proof.
  intros H. unfold calculateStandardizedIntensity. destruct l as [|o l']; [eauto|].
  unfold sliceLast. rewrite (mapM_deref_skipn _ _ _ H). unfold bind.
  match goal with |- context [if ?b then _ else _] => destruct b end; eauto.
Qed.

(** The scorers throw exactly when an element of the history is [null]. *)
Lemma components_ok now (l : list (option Workout)) ws :
  mapM deref l = Ok ws -> exists c, components_of now l = Ok c.
Proof.
  intros H. unfold components_of, calculateStandardizedComponents.
  destruct (consistency_ok now l ws H) as [q1 ->].
  destruct (performance_ok l ws H) as [q2 ->].
  destruct (improvement_ok now l ws H) as [q3 ->].
  destruct (variety_ok now l ws H) as [q4 ->].
  destruct (intensity_ok l ws H) as [q5 ->].
  simpl. eauto.
Qed.


(** *** Fallback biometrics *)








Lemma sliceLast_map {A B} (f : A -> B) (n : nat) (l : list A) :
  sliceLast n (map f l) = map f (sliceLast n l).
Proof. unfold sliceLast. now rewrite length_map, skipn_map. Qed.









Lemma index_of_valid ls now userId l :
  getWorkoutHistory ls = Some l -> validateMetricInputs (Some l) = true ->
  index ls now userId =
    match computed ls now userId l with
    | Ok r => r
    | Throw => (getDefaultIndex now, ls)
    end.
Proof.
  intros Hl Hv. unfold index, calculateIndex, calculateIndexBody.
  rewrite Hl, Hv. reflexivity.
Qed.


End EntryPoint.

Lemma C1_witness :
  Spec.newUser emptyStorage "default" /\
  (let r := fst (exCalculateIndex emptyStorage exNow "default") in
   score r = 30 /\ level r = "Beginner" /\ trend r = "stable").
Proof.
  assert (H : Spec.newUser emptyStorage "default") by (split; reflexivity).
  split; [exact H|].
  exact (C1_new_user_index utcDay exCurrentMonthStart exPreviousMonthStart
           exPreviousMonthEnd emptyStorage exNow "default" H).
Defined.

(** C1 as the specification states it fails: the new user of an empty store
    does not get a score of 14 or less, nor the level "New User". *)
Lemma C1_counterexample :
  Spec.newUser emptyStorage "default" /\
  ~ (let r := fst (exCalculateIndex emptyStorage exNow "default") in
     score r <= 14 /\ level r = "New User" /\ trend r = "stable").
Proof.
  split; [split; reflexivity|].
  vm_compute. intros [H _]. apply H. reflexivity.
Qed.



(** ** Period comparison *)

(** C4, amended: [compareWithPrevious] returns [null] whenever no loaded
    entry is before [now - days], and whenever no loaded entry is at or after
    [now - days] and fewer than two entries are loaded. *)
Theorem C4_null_without_previous ls now userId days :
  let loaded := getIndexHistory ls now userId (days * 2) in
  previousEntriesOf now days loaded = [] \/
  (remainderEntriesOf now days loaded = [] /\ (length loaded < 2)%nat) ->
  compareWithPrevious ls now userId days = None.
Proof.
  intros loaded H. unfold compareWithPrevious. fold loaded.
  destruct (Nat.ltb_spec (length loaded) 2) as [Hlt|Hge]; [reflexivity|].
  destruct H as [H | [_ H]]; [|lia].
  rewrite H. reflexivity.
Qed.

Lemma C4_witness :
  (let loaded :=
     getIndexHistory (storageOfHistory "default" exRecentHistory) exNow "default" (7 * 2) in
   previousEntriesOf exNow 7 loaded = [] \/
   (remainderEntriesOf exNow 7 loaded = [] /\ (length loaded < 2)%nat)) /\
  compareWithPrevious (storageOfHistory "default" exRecentHistory) exNow "default" 7 = None.
Proof.
  assert (H : let loaded :=
                getIndexHistory (storageOfHistory "default" exRecentHistory)
                  exNow "default" (7 * 2) in
              previousEntriesOf exNow 7 loaded = [] \/
              (remainderEntriesOf exNow 7 loaded = [] /\ (length loaded < 2)%nat))
    by (left; reflexivity).
  split; [exact H|].
  exact (C4_null_without_previous _ exNow "default" 7 H).
Defined.

(** C4 as the specification states it fails: with two loaded entries that
    both precede [now - days] the remainder is empty, and the result is not
    [null] but the comparison of the latest entry with itself. *)
Lemma C4_counterexample :
  let ls := storageOfHistory "default" exOldHistory in
  let loaded := getIndexHistory ls exNow "default" (7 * 2) in
  loaded = exOldHistory /\
  remainderEntriesOf exNow 7 loaded = [] /\
  (exists c, compareWithPrevious ls exNow "default" 7 = Some c /\
     cmp_current c = 66 /\ cmp_previous c = 66 /\ cmp_difference c = 0 /\
     (cmp_percentChange c == 0)%Q /\ cmp_trend c = "stable") /\
  compareWithPrevious ls exNow "default" 7 <> None.
Proof.
  cbv zeta. split; [reflexivity|]. split; [reflexivity|]. split.
  - eexists. split; [vm_compute; reflexivity|]. repeat split.
  - discriminate.
Qed.

(** ** Consistency *)

Lemma recent_count now (l : list (option Workout)) ws :
  mapM deref l = Ok ws ->
  length (recentWorkouts now ws) = Spec.workoutsLast30Days now l.
Proof.
  unfold recentWorkouts, Spec.workoutsLast30Days.
  revert ws. induction l as [|[w|] l IH]; intros ws H; simpl in H.
  - injection H as <-. reflexivity.
  - destruct (mapM deref l) as [ws'|]; simpl in H; [|discriminate].
    injection H as <-. simpl.
    destruct (dateAtLeast (thirtyDaysAgo now) w); simpl; now rewrite (IH ws').
  - discriminate.
Qed.

Lemma inject_nat_le (n m : nat) :
  (n <= m)%nat -> (inject_Z (Z.of_nat n) <= inject_Z (Z.of_nat m))%Q.
Proof. intros H. rewrite <- Zle_Qle. lia. Qed.

Lemma Qdiv_3 (x : Q) : (x / 3 == x * (1 # 3))%Q.
Proof. reflexivity. Qed.

Lemma Qdiv_30 (x : Q) : (x / 30 == x * (1 # 30))%Q.
Proof. reflexivity. Qed.

Ltac cap_cases :=
  repeat match goal with
  | |- context [Qle_bool ?a ?b] =>
      let E := fresh "E" in
      destruct (Qle_bool a b) eqn:E;
      [apply Qle_bool_iff in E | apply Qle_bool_false in E]
  end;
  repeat match goal with
  | H : context [(_ / 30)%Q] |- _ => rewrite Qdiv_30 in H
  end;
  rewrite ?Qdiv_3, ?Qdiv_30.

Lemma consistencyOfCount_mono (n m : nat) :
  (n <= m)%nat -> (consistencyOfCount n <= consistencyOfCount m)%Q.
Proof.
  intros H. unfold consistencyOfCount, Math_min.
  pose proof (inject_nat_le n m H) as Hq.
  destruct (Nat.ltb_spec n 3) as [Hn|Hn], (Nat.ltb_spec m 3) as [Hm|Hm]; try lia.
  - cap_cases. lra.
  - assert (Hn2 : (inject_Z (Z.of_nat n) <= 2)%Q)
      by (change 2%Q with (inject_Z (Z.of_nat 2)); apply inject_nat_le; lia).
    assert (Hm3 : (3 <= inject_Z (Z.of_nat m))%Q)
      by (change 3%Q with (inject_Z (Z.of_nat 3)); apply inject_nat_le; lia).
    cap_cases; lra.
  - cap_cases; lra.
Qed.

Lemma consistencyOfCount_cap (n : nat) : (consistencyOfCount n <= 100)%Q.
Proof.
  unfold consistencyOfCount, Math_min.
  destruct (Nat.ltb_spec n 3) as [Hn|Hn].
  - assert (Hn2 : (inject_Z (Z.of_nat n) <= 2)%Q)
      by (change 2%Q with (inject_Z (Z.of_nat 2)); apply inject_nat_le; lia).
    cap_cases. lra.
  - cap_cases; lra.
Qed.

(** C7: of two workout histories, the one with strictly more records dated
    within the last 30 days has a consistency score (before and after the
    rounding of [calculateStandardizedComponents]) that is at least that of
    the other, and at most 100. *)
Theorem C7_consistency_monotone now (h1 h2 : list (option Workout)) q1 q2 :
  calculateStandardizedConsistency now h1 = Ok q1 ->
  calculateStandardizedConsistency now h2 = Ok q2 ->
  (Spec.workoutsLast30Days now h1 < Spec.workoutsLast30Days now h2)%nat ->
  (q1 <= q2)%Q /\ (q2 <= 100)%Q /\ roundClamp q1 <= roundClamp q2.
Proof.
  unfold calculateStandardizedConsistency. intros H1 H2 Hlt.
  destruct (mapM deref h1) as [ws1|] eqn:E1; simpl in H1; [|discriminate].
  destruct (mapM deref h2) as [ws2|] eqn:E2; simpl in H2; [|discriminate].
  injection H1 as <-. injection H2 as <-.
  rewrite (recent_count now h1 ws1 E1), (recent_count now h2 ws2 E2).
  assert (Hle : (consistencyOfCount (Spec.workoutsLast30Days now h1) <=
                 consistencyOfCount (Spec.workoutsLast30Days now h2))%Q)
    by (apply consistencyOfCount_mono; lia).
  split; [exact Hle|]. split; [apply consistencyOfCount_cap|].
  now apply roundClamp_mono.
Qed.

(** Adding a record dated within the last 30 days, anywhere in a history,
    raises that count by one. *)
Lemma workoutsLast30Days_insert now (l1 l2 : list (option Workout)) w :
  dateAtLeast (thirtyDaysAgo now) w = true ->
  Spec.workoutsLast30Days now (l1 ++ Some w :: l2) =
    S (Spec.workoutsLast30Days now (l1 ++ l2)).
Proof.
  intros H. unfold Spec.workoutsLast30Days.
  rewrite !List.filter_app, !length_app. simpl. rewrite H. simpl. lia.
Qed.

Lemma C7_witness :
  calculateStandardizedConsistency exNow [Some exSeniorWorkout] =
    Ok (consistencyOfCount 1) /\
  calculateStandardizedConsistency exNow [Some exSeniorWorkout; Some exSeniorWorkout] =
    Ok (consistencyOfCount 2) /\
  (Spec.workoutsLast30Days exNow [Some exSeniorWorkout] <
   Spec.workoutsLast30Days exNow [Some exSeniorWorkout; Some exSeniorWorkout])%nat /\
  (consistencyOfCount 1 <= consistencyOfCount 2)%Q /\
  (consistencyOfCount 2 <= 100)%Q /\
  roundClamp (consistencyOfCount 1) <= roundClamp (consistencyOfCount 2).
Proof.
  assert (H1 : calculateStandardizedConsistency exNow [Some exSeniorWorkout] =
               Ok (consistencyOfCount 1)) by reflexivity.
  assert (H2 : calculateStandardizedConsistency exNow
                 [Some exSeniorWorkout; Some exSeniorWorkout] =
               Ok (consistencyOfCount 2)) by reflexivity.
  assert (H3 : (Spec.workoutsLast30Days exNow [Some exSeniorWorkout] <
                Spec.workoutsLast30Days exNow
                  [Some exSeniorWorkout; Some exSeniorWorkout])%nat)
    by (vm_compute; lia).
  split; [exact H1|]. split; [exact H2|]. split; [exact H3|].
  exact (C7_consistency_monotone exNow _ _ _ _ H1 H2 H3).
Defined.

(** ** The sort and the map of [dedupeDailyEntries] *)

Section SortFacts.

Context {A : Type} (cmp : A -> A -> Z).

Lemma sortInsert_perm x (l : list A) : Permutation (x :: l) (sortInsert cmp x l).
Proof.
  induction l as [|y l IH]; simpl; [reflexivity|].
  destruct (cmp x y <=? 0); [reflexivity|].
  rewrite perm_swap. now apply perm_skip.
Qed.

Lemma sort_perm (l : list A) : Permutation l (sort cmp l).
Proof.
  induction l as [|x l IH]; simpl; [reflexivity|].
  rewrite <- sortInsert_perm. now apply perm_skip.
Qed.

Lemma sort_In x (l : list A) : In x (sort cmp l) <-> In x l.
Proof.
  split; apply Permutation_in; [symmetry|]; apply sort_perm.
Qed.

End SortFacts.

Section SortByKey.

Context {A : Type} (f : A -> Z).

Let cmp (a b : A) : Z := f a - f b.
Let le (a b : A) : Prop := f a <= f b.

Lemma sortInsert_sorted x (l : list A) :
  Sorted le l -> Sorted le (sortInsert cmp x l).
Proof.
  induction 1 as [|y l Hs IH Hhd]; simpl.
  - repeat constructor.
  - unfold cmp at 1. destruct (Z.leb_spec (f x - f y) 0) as [Hle|Hgt].
    + constructor; [now constructor|]. constructor. unfold le. lia.
    + constructor; [exact IH|].
      destruct l as [|z l]; simpl.
      * constructor. unfold le. lia.
      * unfold cmp at 1. destruct (f x - f z <=? 0).
        -- constructor. unfold le. lia.
        -- constructor. now inversion Hhd.
Qed.

Lemma sort_sorted (l : list A) : Sorted le (sort cmp l).
Proof.
  induction l as [|x l IH]; simpl; [constructor|].
  now apply sortInsert_sorted.
Qed.

Lemma sort_strongly_sorted (l : list A) :
  StronglySorted (fun a b => f a <= f b) (sort (fun a b => f a - f b) l).
Proof.
  apply Sorted_StronglySorted; [|apply sort_sorted].
  intros a b c Hab Hbc. lia.
Qed.

End SortByKey.


Section MapFacts.

Context {V : Type}.

Lemma mapGet_In k (v : V) m : mapGet k m = Some v -> In (k, v) m.
Proof.
  induction m as [|[k' v'] m IH]; simpl; [discriminate|].
  destruct (Z.eqb_spec k k') as [->|Hne].
  - intros H. injection H as ->. now left.
  - intros H. right. now apply IH.
Qed.

Lemma mapGet_None k (m : list (Z * V)) : mapGet k m = None -> ~ In k (map fst m).
Proof.
  induction m as [|[k' v'] m IH]; simpl; [tauto|].
  destruct (Z.eqb_spec k k') as [->|Hne]; [discriminate|].
  intros H [Heq|Hin]; [congruence | now apply IH].
Qed.

Lemma mapSet_keys_fresh k (v : V) m :
  mapGet k m = None -> map fst (mapSet k v m) = (map fst m ++ [k])%list.
Proof.
  induction m as [|[k' v'] m IH]; simpl; [reflexivity|].
  destruct (Z.eqb_spec k k') as [->|Hne]; [discriminate|].
  intros H. simpl. now rewrite IH.
Qed.

Lemma mapSet_keys_present k (v v0 : V) m :
  mapGet k m = Some v0 -> map fst (mapSet k v m) = map fst m.
Proof.
  induction m as [|[k' v'] m IH]; simpl; [discriminate|].
  destruct (Z.eqb_spec k k') as [->|Hne]; [reflexivity|].
  intros H. simpl. now rewrite IH.
Qed.

Lemma mapSet_In k (v : V) m k' v' :
  In (k', v') (mapSet k v m) -> (k' = k /\ v' = v) \/ In (k', v') m.
Proof.
  induction m as [|[k0 v0] m IH]; simpl.
  - intros [H|[]]. injection H as <- <-. now left.
  - destruct (Z.eqb_spec k k0) as [->|Hne]; simpl.
    + intros [H|H]; [injection H as <- <-; now left | right; now right].
    + intros [H|H]; [right; now left|].
      destruct (IH H) as [Heq|Hin]; [now left | right; now right].
Qed.

Lemma mapSet_In_same k (v : V) m : In (k, v) (mapSet k v m).
Proof.
  induction m as [|[k0 v0] m IH]; simpl; [now left|].
  destruct (Z.eqb_spec k k0) as [->|Hne]; simpl; [now left | now right].
Qed.

Lemma mapSet_In_other k (v : V) m k' v' :
  k' <> k -> In (k', v') m -> In (k', v') (mapSet k v m).
Proof.
  intros Hne. induction m as [|[k0 v0] m IH]; simpl; [tauto|].
  destruct (Z.eqb_spec k k0) as [->|Hne0]; simpl.
  - intros [H|H]; [injection H as <- <-; congruence | now right].
  - intros [H|H]; [now left | right; now apply IH].
Qed.

Lemma NoDup_keys_functional (m : list (Z * V)) k v v' :
  List.NoDup (map fst m) -> In (k, v) m -> In (k, v') m -> v = v'.
Proof.
  induction m as [|[k0 v0] m IH]; simpl; [tauto|].
  intros Hnd. inversion Hnd as [|? ? Hnotin Hnd']; subst.
  intros [H|H] [H'|H'].
  - congruence.
  - injection H as <- <-. exfalso. apply Hnotin.
    change k0 with (fst (k0, v')). now apply in_map.
  - injection H' as <- <-. exfalso. apply Hnotin.
    change k0 with (fst (k0, v)). now apply in_map.
  - now apply IH.
Qed.

End MapFacts.

(** ** History manager *)

Section History.

Variable toDateString : Z -> Z.

Let key := Spec.dayOf toDateString.
Let step := dedupeStep toDateString.
Let dedupe := dedupeDailyEntries toDateString.

(** What the map of [dedupeDailyEntries] satisfies after the entries of [l]
    have been visited: its keys are distinct, every value is an entry of [l]
    filed under its own day, and the value of a day is at least as late as
    every entry of [l] of that day. *)
Definition DedupeInv (l : list HistoryEntry) (m : list (Z * HistoryEntry)) : Prop :=
  List.NoDup (map fst m) /\
  (forall k v, In (k, v) m -> k = key v /\ In v l) /\
  (forall e, In e l -> exists v, In (key e, v) m /\ h_timestamp e <= h_timestamp v).

Lemma DedupeInv_nil : DedupeInv [] [].
Proof.
  split; [constructor|]. split; [intros k v []|intros e []].
Qed.

Lemma In_key_not_None (m : list (Z * HistoryEntry)) k v :
  In (k, v) m -> mapGet k m <> None.
Proof.
  intros Hin Hnone. apply (mapGet_None _ _ Hnone).
  change k with (fst (k, v)). now apply in_map.
Qed.

Lemma dedupeStep_inv l m e :
  DedupeInv l m -> DedupeInv (l ++ [e]) (step m e).
Proof.
  intros (Hnd & Hval & Hcov). unfold step, dedupeStep.
  change (toDateString (h_timestamp e)) with (key e).
  assert (Hset : forall k v, In (k, v) (mapSet (key e) e m) ->
                   k = key v /\ In v (l ++ [e])).
  { intros k v Hin. apply mapSet_In in Hin as [[-> ->] | Hin].
    - split; [reflexivity|]. apply in_or_app. right. now left.
    - destruct (Hval _ _ Hin) as [Hk Hl]. split; [exact Hk|].
      apply in_or_app. now left. }
  destruct (mapGet (key e) m) as [kept|] eqn:Eget.
  - pose proof (mapGet_In _ _ _ Eget) as Hkept.
    destruct (Z.ltb_spec (h_timestamp kept) (h_timestamp e)) as [Hlt|Hge].
    + split; [now rewrite (mapSet_keys_present _ _ _ _ Eget)|].
      split; [exact Hset|].
      intros e0 Hin. apply in_app_or in Hin as [Hin | [<- | []]].
      * destruct (Hcov _ Hin) as (v & Hv & Hle).
        destruct (Z.eq_dec (key e0) (key e)) as [Heq|Hne].
        -- exists e. rewrite Heq. split; [apply mapSet_In_same|].
           rewrite Heq in Hv.
           rewrite (NoDup_keys_functional _ _ _ _ Hnd Hv Hkept) in Hle. lia.
        -- exists v. split; [now apply mapSet_In_other | exact Hle].
      * exists e. split; [apply mapSet_In_same | lia].
    + split; [exact Hnd|]. split.
      * intros k v Hin. destruct (Hval _ _ Hin) as [Hk Hl].
        split; [exact Hk|]. apply in_or_app. now left.
      * intros e0 Hin. apply in_app_or in Hin as [Hin | [<- | []]].
        -- now apply Hcov.
        -- exists kept. split; [exact Hkept | exact Hge].
  - split.
    + rewrite (mapSet_keys_fresh _ _ _ Eget).
      apply (Permutation_NoDup (Permutation_cons_append _ _)).
      constructor; [now apply mapGet_None | exact Hnd].
    + split; [exact Hset|].
      intros e0 Hin. apply in_app_or in Hin as [Hin | [<- | []]].
      * destruct (Hcov _ Hin) as (v & Hv & Hle).
        exists v. split; [|exact Hle].
        apply mapSet_In_other; [|exact Hv].
        intros Heq. rewrite Heq in Hv. now apply (In_key_not_None _ _ _ Hv).
      * exists e. split; [apply mapSet_In_same | lia].
Qed.

Lemma fold_dedupeStep_inv l p m :
  DedupeInv p m -> DedupeInv (p ++ l) (fold_left step l m).
Proof.
  revert p m. induction l as [|e l IH]; intros p m H; simpl.
  - now rewrite app_nil_r.
  - replace (p ++ e :: l)%list with ((p ++ [e]) ++ l)%list
      by (now rewrite <- app_assoc).
    apply IH. now apply dedupeStep_inv.
Qed.

Lemma dailyEntries_inv l : DedupeInv l (fold_left step l []).
Proof. exact (fold_dedupeStep_inv l [] [] DedupeInv_nil). Qed.

Lemma values_days (m : list (Z * HistoryEntry)) :
  (forall k v, In (k, v) m -> k = key v) -> map key (mapValues m) = map fst m.
Proof.
  unfold mapValues. induction m as [|[k v] m IH]; intros H; simpl; [reflexivity|].
  rewrite IH by (intros k' v' Hin; apply H; now right).
  now rewrite (H k v) by now left.
Qed.

Lemma dedupe_perm l : Permutation (mapValues (fold_left step l [])) (dedupe l).
Proof. apply sort_perm. Qed.

(** The result of [dedupeDailyEntries] has at most one entry for a day. *)
Lemma dedupe_days_NoDup l : List.NoDup (map key (dedupe l)).
Proof.
  destruct (dailyEntries_inv l) as (Hnd & Hval & _).
  apply (Permutation_NoDup (Permutation_map key (dedupe_perm l))).
  rewrite values_days; [exact Hnd|].
  intros k v Hin. now destruct (Hval _ _ Hin).
Qed.

(** It keeps entries of its argument only. *)
Lemma dedupe_In l e : In e (dedupe l) -> In e l.
Proof.
  intros Hin. destruct (dailyEntries_inv l) as (_ & Hval & _).
  apply (Permutation_in _ (Permutation_sym (dedupe_perm l))) in Hin.
  unfold mapValues in Hin. apply in_map_iff in Hin as ([k v] & <- & Hin).
  now destruct (Hval _ _ Hin).
Qed.

(** It keeps an entry that is later than every other entry of its day. *)
Lemma dedupe_keeps_latest l e :
  In e l ->
  (forall e', In e' l -> key e' = key e -> e' = e \/ h_timestamp e' < h_timestamp e) ->
  In e (dedupe l).
Proof.
  intros Hin Hlate. destruct (dailyEntries_inv l) as (_ & Hval & Hcov).
  destruct (Hcov _ Hin) as (v & Hv & Hle).
  destruct (Hval _ _ Hv) as [Hk Hvl].
  apply (Permutation_in _ (dedupe_perm l)).
  unfold mapValues. apply in_map_iff. exists (key e, v). split; [|exact Hv].
  simpl. destruct (Hlate v Hvl (eq_sym Hk)) as [Heq|Hlt]; [exact Heq | lia].
Qed.

(** It returns its entries in ascending order of timestamp. *)
Lemma dedupe_sorted l :
  StronglySorted (fun a b => h_timestamp a <= h_timestamp b) (dedupe l).
Proof. apply (sort_strongly_sorted h_timestamp). Qed.


Let save := saveToHistory toDateString.
Let updated := updatedHistory toDateString.

Lemma updated_In now h d e :
  In e (updated now h d) ->
  (In e h \/ e = historyEntryOf d) /\
  now - MAX_HISTORY_DAYS * msPerDay < h_timestamp e.
Proof.
  unfold updated, updatedHistory. intros Hin.
  apply dedupe_In, List.filter_In in Hin as [Hin Hcut].
  split; [|lia].
  apply in_app_or in Hin as [Hin | [<- | []]]; [now left | now right].
Qed.

(** What is persisted for the user after [saveToHistory], in terms of what
    was persisted before. *)
Lemma persisted_after_save ls now userId d :
  persistedHistory (snd (save ls now userId d)) userId =
    if fst (save ls now userId d)
    then updated now (persistedHistory ls userId) d
    else [].
Proof.
  unfold save, saveToHistory, persistedHistory, setHistory.
  destruct (ls_history ls !! userId) as [[|h]|] eqn:E; simpl.
  - now rewrite E.
  - now rewrite lookup_insert_eq.
  - now rewrite lookup_insert_eq.
Qed.



(** C9: after an append, every entry of the persisted list has a timestamp
    later than 90 days before the time of the append, so none is older than
    90 days. *)
Theorem C9_retention ls now userId d :
  Forall (fun e => now - MAX_HISTORY_DAYS * msPerDay < h_timestamp e /\
                   now - h_timestamp e <= MAX_HISTORY_DAYS * msPerDay)
    (persistedHistory (snd (save ls now userId d)) userId).
Proof.
  rewrite persisted_after_save.
  destruct (fst (save ls now userId d)); [|constructor].
  apply List.Forall_forall. intros e Hin.
  apply updated_In in Hin as [_ Hcut]. lia.
Qed.

(** C10: after an append, the persisted list is in ascending order of
    timestamp, whatever the order of the list stored before. *)
Theorem C10_sorted_by_timestamp ls now userId d :
  StronglySorted (fun a b => h_timestamp a <= h_timestamp b)
    (persistedHistory (snd (save ls now userId d)) userId).
Proof.
  rewrite persisted_after_save.
  destruct (fst (save ls now userId d)); [|constructor].
  apply dedupe_sorted.
Qed.

End History.

Lemma filter_strongly_sorted {A} (R : A -> A -> Prop) (f : A -> bool) (l : list A) :
  StronglySorted R l -> StronglySorted R (List.filter f l).
Proof.
  induction 1 as [|x l Hs IH Hall]; simpl; [constructor|].
  destruct (f x); [|exact IH].
  constructor; [exact IH|].
  apply List.Forall_forall. intros y Hy. apply List.filter_In in Hy as [Hy _].
  revert y Hy. now apply List.Forall_forall.
Qed.

(** The window that [getIndexHistory] loads from a list in ascending order
    is in ascending order, so that its last entries, which [calculateTrend]
    takes with [slice(-5)], are the latest ones. *)
Lemma getIndexHistory_sorted ls now userId days :
  StronglySorted (fun a b => h_timestamp a <= h_timestamp b)
    (persistedHistory ls userId) ->
  StronglySorted (fun a b => h_timestamp a <= h_timestamp b)
    (getIndexHistory ls now userId days).
Proof.
  unfold persistedHistory, getIndexHistory.
  destruct (ls_history ls !! userId) as [[|h]|]; try constructor.
  intros H. now apply filter_strongly_sorted.
Qed.


(** * Further properties of the engine *)

(** ** Ranges of the scorers *)

Ltac q_case :=
  match goal with
  | |- context [Qle_bool ?a ?b] =>
      let E := fresh "E" in
      destruct (Qle_bool a b) eqn:E;
      [apply Qle_bool_iff in E | apply Qle_bool_false in E]
  | |- context [Qltb ?a ?b] =>
      let E := fresh "E" in
      destruct (Qltb a b) eqn:E;
      [apply Qltb_lt in E | apply Qltb_ge in E]
  end; cbn [andb]; try (exfalso; lra).

(** The six zones of [getHeartRateZoneScore]. *)
Lemma zone_score_cases (p : Q) :
  ((p < 50)%Q /\ getHeartRateZoneScore p = 10%Q) \/
  ((50 <= p)%Q /\ (p < 60)%Q /\ getHeartRateZoneScore p = 20%Q) \/
  ((60 <= p)%Q /\ (p < 70)%Q /\ getHeartRateZoneScore p = 40%Q) \/
  ((70 <= p)%Q /\ (p < 80)%Q /\ getHeartRateZoneScore p = 70%Q) \/
  ((80 <= p)%Q /\ (p < 90)%Q /\ getHeartRateZoneScore p = 90%Q) \/
  ((90 <= p)%Q /\ getHeartRateZoneScore p = 100%Q).
Proof.
  unfold getHeartRateZoneScore.
  repeat q_case; tauto.
Qed.

Lemma zone_score_range (p : Q) :
  (10 <= getHeartRateZoneScore p)%Q /\ (getHeartRateZoneScore p <= 100)%Q.
Proof.
  destruct (zone_score_cases p) as
    [[_ ->] | [(_ & _ & ->) | [(_ & _ & ->) | [(_ & _ & ->) | [(_ & _ & ->) | [_ ->]]]]]];
    split; discriminate.
Qed.

(** X1: the zone score of [getHeartRateZoneScore] lies between 10 and 100
    and never decreases when the percentage of the maximum heart rate
    grows. *)
Theorem X1_zone_score_monotone (p1 p2 : Q) :
  (p1 <= p2)%Q ->
  (getHeartRateZoneScore p1 <= getHeartRateZoneScore p2)%Q /\
  (10 <= getHeartRateZoneScore p1)%Q /\ (getHeartRateZoneScore p2 <= 100)%Q.
Proof.
  intros H. split; [|split; apply zone_score_range].
  destruct (zone_score_cases p1) as
    [[? ->] | [(? & ? & ->) | [(? & ? & ->) | [(? & ? & ->) | [(? & ? & ->) | [? ->]]]]]];
  destruct (zone_score_cases p2) as
    [[? ->] | [(? & ? & ->) | [(? & ? & ->) | [(? & ? & ->) | [(? & ? & ->) | [? ->]]]]]];
  try discriminate; exfalso; lra.
Qed.

Lemma X1_witness :
  (55 <= 85)%Q /\
  (getHeartRateZoneScore 55 <= getHeartRateZoneScore 85)%Q /\
  (10 <= getHeartRateZoneScore 55)%Q /\ (getHeartRateZoneScore 85 <= 100)%Q.
Proof.
  split; [discriminate|].
  apply (X1_zone_score_monotone 55 85). discriminate.
Defined.

(** The totals of the loop of [calculateStandardizedIntensity]: the sum of
    the zone scores stays between 10 and 100 times the count. *)
Definition intensityStep (acc : Q * Z) (w : Workout) : Q * Z :=
  let heartRate := orQ (w_heartRate w) (inject_Z (estimateHeartRate w)) in
  let age := orQ (w_age w) 25 in
  let maxHeartRate := (220 - age)%Q in
  if Qltb 0 heartRate && Qltb 0 maxHeartRate then
    let hrPercentage := (heartRate / maxHeartRate * 100)%Q in
    let zoneScore := getHeartRateZoneScore hrPercentage in
    ((fst acc + zoneScore)%Q, snd acc + 1)
  else acc.

Lemma intensity_totals (ws : list Workout) (acc : Q * Z) :
  0 <= snd acc ->
  (10 * inject_Z (snd acc) <= fst acc)%Q -> (fst acc <= 100 * inject_Z (snd acc))%Q ->
  let r := fold_left intensityStep ws acc in
  0 <= snd r /\
  (10 * inject_Z (snd r) <= fst r)%Q /\ (fst r <= 100 * inject_Z (snd r))%Q.
Proof.
  revert acc. induction ws as [|w ws IH]; intros acc H0 Hlo Hhi; simpl; [auto|].
  apply IH; unfold intensityStep;
    destruct (Qltb 0 _ && Qltb 0 _); cbn [fst snd]; try assumption; try lia.
  - rewrite inject_Z_plus.
    destruct (zone_score_range
                (orQ (w_heartRate w) (inject_Z (estimateHeartRate w)) /
                 (220 - orQ (w_age w) 25) * 100)) as [Hz _].
    change (inject_Z 1) with 1%Q. lra.
  - rewrite inject_Z_plus.
    destruct (zone_score_range
                (orQ (w_heartRate w) (inject_Z (estimateHeartRate w)) /
                 (220 - orQ (w_age w) 25) * 100)) as [_ Hz].
    change (inject_Z 1) with 1%Q. lra.
Qed.

(** X2: whenever [calculateStandardizedIntensity] returns, its score lies
    between 10 and 100: it is an average of zone scores, or the default 50. *)
Theorem X2_intensity_range (l : list (option Workout)) (q : Q) :
  calculateStandardizedIntensity l = Ok q -> (10 <= q)%Q /\ (q <= 100)%Q.
Proof.
  unfold calculateStandardizedIntensity. destruct l as [|o l].
  - intros H. injection H as <-. split; discriminate.
  - destruct (mapM deref (sliceLast 10 (o :: l))) as [ws|]; simpl; [|discriminate].
    change (fold_left _ ws (0%Q, 0)) with (fold_left intensityStep ws (0%Q, 0)).
    destruct (intensity_totals ws (0%Q, 0)) as (H0 & Hlo & Hhi);
      try (simpl; lia); try (simpl; discriminate).
    set (r := fold_left intensityStep ws (0%Q, 0)) in *.
    destruct (Z.eqb_spec (snd r) 0) as [E|E]; intros H; injection H as <-.
    + split; discriminate.
    + assert (Hpos : (0 < inject_Z (snd r))%Q).
      { change 0%Q with (inject_Z 0). rewrite <- Zlt_Qlt. lia. }
      split.
      * apply Qle_shift_div_l; [exact Hpos | exact Hlo].
      * apply Qle_shift_div_r; [exact Hpos | exact Hhi].
Qed.

Lemma X2_witness :
  calculateStandardizedIntensity [Some exSeniorWorkout] = Ok (90 / 1)%Q /\
  (10 <= 90 / 1)%Q /\ (90 / 1 <= 100)%Q.
Proof.
  assert (H : calculateStandardizedIntensity [Some exSeniorWorkout] = Ok (90 / 1)%Q)
    by reflexivity.
  split; [exact H|]. exact (X2_intensity_range _ _ H).
Defined.

Lemma Qdiv_5 (x : Q) : (x / 5 == x * (1 # 5))%Q.
Proof. reflexivity. Qed.

Lemma Qdiv_7 (x : Q) : (x / 7 == x * (1 # 7))%Q.
Proof. reflexivity. Qed.

Section ScorerRanges.

Variable currentMonthStart : Z -> Z.
Variable previousMonthStart : Z -> Z.
Variable previousMonthEnd : Z -> Z.

(** X3: whenever [calculateStandardizedImprovement] returns, its score lies
    between 0 and 100, whatever the two monthly averages are. *)
Theorem X3_improvement_range now (l : list (option Workout)) (q : Q) :
  calculateStandardizedImprovement currentMonthStart previousMonthStart
    previousMonthEnd now l = Ok q ->
  (0 <= q)%Q /\ (q <= 100)%Q.
Proof.
  unfold calculateStandardizedImprovement.
  destruct (length l <? 2)%nat.
  { intros H. injection H as <-. split; discriminate. }
  destruct (mapM deref l) as [ws|]; simpl; [|discriminate].
  match goal with
  | |- context [match ?x with [] => _ | _ :: _ => _ end] => destruct x
  end.
  { intros H. injection H as <-. split; discriminate. }
  match goal with
  | |- context [Qeq_bool ?a 0] => destruct (Qeq_bool a 0)
  end.
  { intros H. injection H as <-. split; discriminate. }
  match goal with
  | |- context [Qltb ?p 0] => set (pct := p)
  end.
  unfold Math_max, Math_min.
  destruct (Qltb pct 0) eqn:E; [apply Qltb_lt in E | apply Qltb_ge in E];
    intros H; injection H as <-.
  - destruct (Qle_bool 0 (50 + pct / 5 * 100)) eqn:E0;
      [apply Qle_bool_iff in E0; rewrite Qdiv_5 in *; split; lra
      | split; discriminate].
  - destruct (Qle_bool 100 (50 + pct / 5 * 100)) eqn:E0;
      [split; discriminate
      | apply Qle_bool_false in E0; rewrite Qdiv_5 in *; split; lra].
Qed.

End ScorerRanges.

Lemma X3_witness :
  calculateStandardizedImprovement exCurrentMonthStart exPreviousMonthStart
    exPreviousMonthEnd exNow [Some exSeniorWorkout] = Ok 50%Q /\
  (0 <= 50)%Q /\ (50 <= 100)%Q.
Proof.
  assert (H : calculateStandardizedImprovement exCurrentMonthStart
                exPreviousMonthStart exPreviousMonthEnd exNow
                [Some exSeniorWorkout] = Ok 50%Q) by reflexivity.
  split; [exact H|].
  exact (X3_improvement_range _ _ _ _ _ _ H).
Defined.

Lemma size_types_pos (k : string) (ks : list string) :
  (1 <= size (list_to_set (k :: ks) : gset string))%nat.
Proof.
  destruct (size (list_to_set (k :: ks) : gset string)) eqn:E; [|lia].
  apply size_empty_inv in E. set_solver.
Qed.

(** X4: whenever [calculateStandardizedVariety] returns, its score is 0 when
    no record is dated within the last 30 days, and otherwise lies between
    100/7 (one type) and 100. *)
Theorem X4_variety_range now (l : list (option Workout)) (q : Q) :
  calculateStandardizedVariety now l = Ok q ->
  (Spec.workoutsLast30Days now l = 0%nat /\ q = 0%Q) \/
  ((0 < Spec.workoutsLast30Days now l)%nat /\ (100 / 7 <= q)%Q /\ (q <= 100)%Q).
Proof.
  unfold calculateStandardizedVariety.
  destruct (mapM deref l) as [ws|] eqn:E; simpl; [|discriminate].
  rewrite <- (recent_count now l ws E).
  destruct (recentWorkouts now ws) as [|w recent].
  - intros H. injection H as <-. now left.
  - intros [= <-]. right. split; [simpl; lia|].
    change ({[workoutTypeKey w]} ∪ list_to_set (map workoutTypeKey recent) : gset string)
      with (list_to_set (map workoutTypeKey (w :: recent)) : gset string).
    set (n := size (list_to_set (map workoutTypeKey (w :: recent)) : gset string)).
    assert (Hn : (1 <= inject_Z (Z.of_nat n))%Q).
    { change 1%Q with (inject_Z (Z.of_nat 1)). apply inject_nat_le.
      apply size_types_pos. }
    unfold Math_min.
    destruct (Qle_bool 100 (inject_Z (Z.of_nat n) / 7 * 100)) eqn:E0;
      [split; discriminate
      | apply Qle_bool_false in E0; rewrite !Qdiv_7 in *; split; lra].
Qed.

Lemma X4_witness :
  calculateStandardizedVariety exNow [Some exSeniorWorkout] =
    Ok (Math_min 100 (1 / 7 * 100)) /\
  ((Spec.workoutsLast30Days exNow [Some exSeniorWorkout] = 0%nat /\
    Math_min 100 (1 / 7 * 100) = 0%Q) \/
   ((0 < Spec.workoutsLast30Days exNow [Some exSeniorWorkout])%nat /\
    (100 / 7 <= Math_min 100 (1 / 7 * 100))%Q /\
    (Math_min 100 (1 / 7 * 100) <= 100)%Q)).
Proof.
  assert (H : calculateStandardizedVariety exNow [Some exSeniorWorkout] =
              Ok (Math_min 100 (1 / 7 * 100))) by reflexivity.
  split; [exact H|]. exact (X4_variety_range _ _ _ H).
Defined.

(** X5: whenever [calculateStandardizedConsistency] returns, its score lies
    between 0 and 100, is 100 exactly when at least 30 records are dated
    within the last 30 days, and is below 10 exactly when fewer than 3 are. *)
Theorem X5_consistency_thresholds now (l : list (option Workout)) (q : Q) :
  calculateStandardizedConsistency now l = Ok q ->
  (0 <= q)%Q /\ (q <= 100)%Q /\
  ((q == 100)%Q <-> (30 <= Spec.workoutsLast30Days now l)%nat) /\
  ((q < 10)%Q <-> (Spec.workoutsLast30Days now l < 3)%nat).
Proof.
  unfold calculateStandardizedConsistency.
  destruct (mapM deref l) as [ws|] eqn:E; simpl; [|discriminate].
  intros H. injection H as <-. rewrite (recent_count now l ws E).
  set (n := Spec.workoutsLast30Days now l).
  assert (H0 : (0 <= inject_Z (Z.of_nat n))%Q).
  { change 0%Q with (inject_Z (Z.of_nat 0)). apply inject_nat_le. lia. }
  unfold consistencyOfCount, Math_min.
  destruct (Nat.ltb_spec n 3) as [Hn|Hn].
  - assert (Hn2 : (inject_Z (Z.of_nat n) <= 2)%Q)
      by (change 2%Q with (inject_Z (Z.of_nat 2)); apply inject_nat_le; lia).
    rewrite Qdiv_3. repeat split; try lra; try lia; intros; exfalso; lra.
  - assert (Hn3 : (3 <= inject_Z (Z.of_nat n))%Q)
      by (change 3%Q with (inject_Z (Z.of_nat 3)); apply inject_nat_le; lia).
    destruct (Qle_bool 100 (inject_Z (Z.of_nat n) / 30 * 100)) eqn:E0;
      [apply Qle_bool_iff in E0 | apply Qle_bool_false in E0];
      rewrite !Qdiv_30 in *.
    + assert (H30 : (30 <= n)%nat).
      { assert (Hq : (inject_Z (Z.of_nat 30) <= inject_Z (Z.of_nat n))%Q)
          by (change (inject_Z (Z.of_nat 30)) with 30%Q; lra).
        rewrite <- Zle_Qle in Hq. lia. }
      repeat split; try lra; try lia; try reflexivity; intros; exfalso; lra.
    + assert (H30 : (n < 30)%nat).
      { destruct (Nat.lt_ge_cases n 30) as [Hlt|Hge]; [exact Hlt|].
        exfalso. apply (inject_nat_le 30 n) in Hge.
        change (inject_Z (Z.of_nat 30)) with 30%Q in Hge. lra. }
      repeat split; try lra; try lia; intros; exfalso; lra.
Qed.

Lemma X5_witness :
  calculateStandardizedConsistency exNow [Some exSeniorWorkout] =
    Ok (consistencyOfCount 1) /\
  (0 <= consistencyOfCount 1)%Q /\ (consistencyOfCount 1 <= 100)%Q /\
  ((consistencyOfCount 1 == 100)%Q <->
   (30 <= Spec.workoutsLast30Days exNow [Some exSeniorWorkout])%nat) /\
  ((consistencyOfCount 1 < 10)%Q <->
   (Spec.workoutsLast30Days exNow [Some exSeniorWorkout] < 3)%nat).
Proof.
  assert (H : calculateStandardizedConsistency exNow [Some exSeniorWorkout] =
              Ok (consistencyOfCount 1)) by reflexivity.
  split; [exact H|]. exact (X5_consistency_thresholds _ _ _ H).
Defined.

(** ** More on the history manager *)

Lemma sort_sorted_id {A} (f : A -> Z) (l : list A) :
  Sorted (fun a b => f a <= f b) l -> sort (fun a b => f a - f b) l = l.
Proof.
  induction 1 as [|x l Hs IH Hhd]; simpl; [reflexivity|].
  rewrite IH. destruct Hhd as [|y l' Hxy]; simpl; [reflexivity|].
  destruct (Z.leb_spec (f x - f y) 0); [reflexivity | lia].
Qed.

Lemma mapSet_fresh {V} k (v : V) m :
  mapGet k m = None -> mapSet k v m = (m ++ [(k, v)])%list.
Proof.
  induction m as [|[k' v'] m IH]; simpl; [reflexivity|].
  destruct (Z.eqb_spec k k'); [discriminate|].
  intros H. now rewrite IH.
Qed.

Lemma mapGet_snoc_ne {V} k k' (v : V) m :
  k <> k' -> mapGet k (m ++ [(k', v)])%list = mapGet k m.
Proof.
  intros Hne. induction m as [|[k0 v0] m IH]; simpl.
  - destruct (Z.eqb_spec k k'); [contradiction | reflexivity].
  - destruct (Z.eqb_spec k k0); [reflexivity | exact IH].
Qed.

Lemma filter_all {A} (f : A -> bool) (l : list A) :
  (forall x, In x l -> f x = true) -> List.filter f l = l.
Proof.
  induction l as [|x l IH]; intros H; simpl; [reflexivity|].
  rewrite (H x) by now left. f_equal. apply IH. intros y Hy. apply H. now right.
Qed.

Section HistoryMore.

Variable toDateString : Z -> Z.

Let key := Spec.dayOf toDateString.
Let step := dedupeStep toDateString.
Let dedupe := dedupeDailyEntries toDateString.
Let save := saveToHistory toDateString.
Let updated := updatedHistory toDateString.
Let filed (l : list HistoryEntry) : list (Z * HistoryEntry) :=
  map (fun x => (key x, x)) l.

Lemma dedupe_covers l e :
  In e l ->
  exists v, In v (dedupe l) /\ key v = key e /\ h_timestamp e <= h_timestamp v.
Proof.
  intros Hin. destruct (dailyEntries_inv toDateString l) as (_ & Hval & Hcov).
  destruct (Hcov _ Hin) as (v & Hv & Hle).
  exists v. split; [|split; [|exact Hle]].
  - apply (Permutation_in _ (dedupe_perm toDateString l)).
    unfold mapValues. apply in_map_iff. now exists (Spec.dayOf toDateString e, v).
  - symmetry. now destruct (Hval _ _ Hv).
Qed.

Lemma fold_distinct_days l m :
  List.NoDup (map key l) ->
  (forall x, In x l -> mapGet (key x) m = None) ->
  fold_left step l m = (m ++ filed l)%list.
Proof.
  revert m. induction l as [|x l IH]; intros m Hnd Hfresh; simpl.
  - now rewrite app_nil_r.
  - inversion Hnd as [|? ? Hnotin Hnd']; subst.
    assert (Hx : step m x = (m ++ [(key x, x)])%list).
    { unfold step, dedupeStep. change (toDateString (h_timestamp x)) with (key x).
      rewrite (Hfresh x) by now left. apply mapSet_fresh. apply Hfresh. now left. }
    rewrite Hx, IH; [now rewrite <- app_assoc | exact Hnd' |].
    intros y Hy. rewrite mapGet_snoc_ne; [apply Hfresh; now right|].
    intros Heq. apply Hnotin. rewrite <- Heq. now apply in_map.
Qed.

Lemma mapGet_filed l v :
  List.NoDup (map key l) -> In v l -> mapGet (key v) (filed l) = Some v.
Proof.
  induction l as [|x l IH]; simpl; [tauto|].
  intros Hnd. inversion Hnd as [|? ? Hnotin Hnd']; subst.
  intros [-> | Hin]; [now rewrite Z.eqb_refl|].
  destruct (Z.eqb_spec (key v) (key x)) as [Heq|Hne]; [|now apply IH].
  exfalso. apply Hnotin. rewrite <- Heq. now apply in_map.
Qed.

Lemma values_filed l : mapValues (filed l) = l.
Proof.
  unfold mapValues, filed. rewrite map_map. simpl. apply map_id.
Qed.

(** A list in ascending order with one entry a day is left as it is. *)
Lemma dedupe_fixpoint l :
  List.NoDup (map key l) ->
  StronglySorted (fun a b => h_timestamp a <= h_timestamp b) l ->
  dedupe l = l.
Proof.
  intros Hnd Hs. unfold dedupe, dedupeDailyEntries. fold step.
  rewrite (fold_distinct_days l [] Hnd) by reflexivity. simpl.
  rewrite values_filed. apply sort_sorted_id. now apply StronglySorted_Sorted.
Qed.

(** Nor does an entry that is not later than the one kept for its day
    change it. *)
Lemma dedupe_snoc_dominated l e v :
  List.NoDup (map key l) ->
  StronglySorted (fun a b => h_timestamp a <= h_timestamp b) l ->
  In v l -> key v = key e -> h_timestamp e <= h_timestamp v ->
  dedupe (l ++ [e]) = l.
Proof.
  intros Hnd Hs Hv Hk Hle. unfold dedupe, dedupeDailyEntries. fold step.
  rewrite fold_left_app. rewrite (fold_distinct_days l [] Hnd) by reflexivity.
  simpl. unfold step at 1, dedupeStep.
  change (toDateString (h_timestamp e)) with (key e).
  rewrite <- Hk, (mapGet_filed l v Hnd Hv).
  destruct (Z.ltb_spec (h_timestamp v) (h_timestamp e)); [lia|].
  rewrite values_filed. apply sort_sorted_id. now apply StronglySorted_Sorted.
Qed.

Lemma updated_idempotent now h d :
  updated now (updated now h d) d = updated now h d.
Proof.
  unfold updated, updatedHistory. fold dedupe.
  set (c := fun entry => now - MAX_HISTORY_DAYS * msPerDay <? h_timestamp entry).
  set (e := historyEntryOf d).
  set (r := dedupe (List.filter c (h ++ [e]))).
  assert (Hnd : List.NoDup (map key r)) by apply dedupe_days_NoDup.
  assert (Hs : StronglySorted (fun a b => h_timestamp a <= h_timestamp b) r)
    by apply dedupe_sorted.
  assert (Hall : List.filter c r = r).
  { apply filter_all. intros x Hx.
    apply (dedupe_In toDateString) in Hx. now apply List.filter_In in Hx. }
  change (dedupe (List.filter c (r ++ [e])) = r).
  rewrite List.filter_app, Hall. simpl.
  destruct (c e) eqn:Ec.
  - assert (He : In e (List.filter c (h ++ [e]))).
    { apply List.filter_In. split; [|exact Ec]. apply in_or_app. right. now left. }
    destruct (dedupe_covers _ _ He) as (v & Hv & Hk & Hle).
    now apply (dedupe_snoc_dominated r e v).
  - rewrite app_nil_r. now apply dedupe_fixpoint.
Qed.

(** X6: [dedupeDailyEntries] returns entries of its argument only, and for
    every entry of its argument it returns an entry of the same calendar day
    that is at least as late. *)
Theorem X6_dedupe_keeps_latest_of_each_day (l : list HistoryEntry) :
  (forall v, In v (dedupeDailyEntries toDateString l) -> In v l) /\
  (forall e, In e l ->
     exists v, In v (dedupeDailyEntries toDateString l) /\
       Spec.dayOf toDateString v = Spec.dayOf toDateString e /\
       h_timestamp e <= h_timestamp v).
Proof.
  split.
  - intros v. apply dedupe_In.
  - intros e. apply dedupe_covers.
Qed.

(** X7: [saveToHistory] is idempotent: saving the same snapshot a second
    time, at the same instant, leaves the store as the first save left it. *)
Theorem X7_saveToHistory_idempotent ls now userId d :
  let ls1 := snd (save ls now userId d) in
  snd (save ls1 now userId d) = ls1.
Proof.
  unfold save, saveToHistory, setHistory.
  destruct (ls_history ls !! userId) as [[|h]|] eqn:E; simpl.
  - now rewrite E.
  - rewrite lookup_insert_eq. simpl. f_equal.
    rewrite insert_insert_eq. do 2 f_equal. apply updated_idempotent.
  - rewrite lookup_insert_eq. simpl. f_equal.
    rewrite insert_insert_eq. do 2 f_equal. apply updated_idempotent.
Qed.

Lemma getIndexHistory_persisted ls now userId days :
  getIndexHistory ls now userId days =
    List.filter (fun entry => now - days * msPerDay <? h_timestamp entry)
      (persistedHistory ls userId).
Proof.
  unfold getIndexHistory, persistedHistory.
  now destruct (ls_history ls !! userId) as [[|h]|].
Qed.


(** X9: a snapshot stamped with the instant of its save, and later than the
    entries already stored for its day, is read back by [getIndexHistory]
    over any window of a positive number of days, once [saveToHistory] has
    succeeded. *)
Theorem X9_saved_snapshot_is_read_back ls now userId d days :
  fst (save ls now userId d) = true ->
  lastUpdated d = now ->
  0 < days ->
  (forall e, In e (persistedHistory ls userId) ->
     Spec.dayOf toDateString e = toDateString now -> h_timestamp e < now) ->
  In (historyEntryOf d) (getIndexHistory (snd (save ls now userId d)) now userId days).
Proof.
  intros Hok Hstamp Hdays Hold.
  rewrite getIndexHistory_persisted. apply List.filter_In.
  assert (Hts : h_timestamp (historyEntryOf d) = now) by exact Hstamp.
  split; [|rewrite Hts; apply Z.ltb_lt; unfold msPerDay; lia].
  unfold save. rewrite (persisted_after_save toDateString). fold save. rewrite Hok.
  unfold updatedHistory. apply dedupe_keeps_latest.
  - apply List.filter_In. split; [apply in_or_app; right; now left|].
    rewrite Hts. apply Z.ltb_lt. unfold MAX_HISTORY_DAYS, msPerDay. lia.
  - intros e' Hin Hsame. apply List.filter_In in Hin as [Hin _].
    apply in_app_or in Hin as [Hin | [<- | []]]; [right | now left].
    rewrite Hts. apply Hold; [exact Hin|].
    rewrite Hsame. unfold Spec.dayOf. now rewrite Hts.
Qed.

(** X10: [saveToHistory] writes under the history key of its user only: the
    workout history, every current index and the histories of the other
    users are left as they were; and when it returns [false] the whole store
    is. *)
Theorem X10_saveToHistory_frame ls now userId d :
  let ls' := snd (save ls now userId d) in
  ls_workoutHistory ls' = ls_workoutHistory ls /\
  ls_current ls' = ls_current ls /\
  (forall other, other <> userId -> ls_history ls' !! other = ls_history ls !! other) /\
  (fst (save ls now userId d) = false -> ls' = ls).
Proof.
  unfold save, saveToHistory, setHistory.
  destruct (ls_history ls !! userId) as [[|h]|]; simpl;
    repeat split; try discriminate;
    intros other Hne; now rewrite lookup_insert_ne.
Qed.

(** X11: [getCurrentIndex] after [saveCurrentIndex] returns the index that
    was saved for that user, and what it returns for another user is not
    changed; [saveCurrentIndex] leaves the histories alone. *)
Theorem X11_current_index_round_trip ls userId (d : IndexData) :
  let ls' := snd (saveCurrentIndex ls userId d) in
  getCurrentIndex ls' userId = Some d /\
  (forall other, other <> userId -> getCurrentIndex ls' other = getCurrentIndex ls other) /\
  ls_history ls' = ls_history ls /\
  ls_workoutHistory ls' = ls_workoutHistory ls.
Proof.
  unfold saveCurrentIndex, getCurrentIndex. simpl. repeat split.
  - apply lookup_insert_eq.
  - intros other Hne. now apply lookup_insert_ne.
Qed.

End HistoryMore.

Lemma X9_witness :
  fst (saveToHistory utcDay emptyStorage exNow "default" (exIndexData exNow 66)) = true /\
  lastUpdated (exIndexData exNow 66) = exNow /\
  0 < 30 /\
  (forall e, In e (persistedHistory emptyStorage "default") ->
     Spec.dayOf utcDay e = utcDay exNow -> h_timestamp e < exNow) /\
  In (historyEntryOf (exIndexData exNow 66))
    (getIndexHistory
       (snd (saveToHistory utcDay emptyStorage exNow "default" (exIndexData exNow 66)))
       exNow "default" 30).
Proof.
  assert (H1 : fst (saveToHistory utcDay emptyStorage exNow "default"
                      (exIndexData exNow 66)) = true) by reflexivity.
  assert (H2 : lastUpdated (exIndexData exNow 66) = exNow) by reflexivity.
  assert (H3 : 0 < 30) by reflexivity.
  assert (H4 : forall e, In e (persistedHistory emptyStorage "default") ->
                 Spec.dayOf utcDay e = utcDay exNow -> h_timestamp e < exNow)
    by (intros e []).
  repeat (split; [assumption|]).
  exact (X9_saved_snapshot_is_read_back utcDay emptyStorage exNow "default"
           (exIndexData exNow 66) 30 H1 H2 H3 H4).
Defined.

(** ** More on the entry point *)

Lemma saveToHistory_untouched toDateString ls now userId d :
  let ls' := snd (saveToHistory toDateString ls now userId d) in
  ls_workoutHistory ls' = ls_workoutHistory ls /\
  ls_current ls' = ls_current ls /\
  (forall other, other <> userId -> ls_history ls' !! other = ls_history ls !! other).
Proof.
  unfold saveToHistory, setHistory.
  destruct (ls_history ls !! userId) as [[|h]|]; simpl; repeat split;
    intros other Hne; now rewrite lookup_insert_ne.
Qed.

Section EntryPointMore.

Variable toDateString : Z -> Z.
Variable currentMonthStart : Z -> Z.
Variable previousMonthStart : Z -> Z.
Variable previousMonthEnd : Z -> Z.

Let components_of :=
  calculateStandardizedComponents currentMonthStart previousMonthStart previousMonthEnd.
Let computed :=
  computedIndex toDateString currentMonthStart previousMonthStart previousMonthEnd.
Let index :=
  calculateIndex toDateString currentMonthStart previousMonthStart previousMonthEnd.

(** The result of [calculateIndex] is the default index, with the store as
    it was, or the computed index of an array that the validation accepts. *)
Lemma index_cases ls now userId :
  index ls now userId = (getDefaultIndex now, ls) \/
  exists l c, getWorkoutHistory ls = Some l /\
    validateMetricInputs (Some l) = true /\
    components_of now l = Ok c /\
    computed ls now userId l = Ok (index ls now userId).
Proof.
  unfold index, calculateIndex, calculateIndexBody.
  destruct (validateMetricInputs (getWorkoutHistory ls)) eqn:Ev; simpl; [|now left].
  destruct (getWorkoutHistory ls) as [l|]; [|now left].
  fold computed. unfold computed, computedIndex. fold components_of.
  destruct (components_of now l) as [c|] eqn:Ec; simpl; [|now left].
  right. exists l, c. split; [reflexivity|]. split; [exact Ev|].
  split; [exact Ec|]. rewrite Ec. reflexivity.
Qed.

Lemma computed_shape ls now userId l c :
  components_of now l = Ok c ->
  exists r,
    computed ls now userId l =
      Ok (r, snd (saveToHistory toDateString (snd (saveCurrentIndex ls userId r))
                    now userId r)) /\
    components r = c /\ score r = calculateStandardizedScore c /\
    displayScore r = score r /\
    level r = getStandardizedPerformanceLevel (score r) /\
    lastUpdated r = now /\ workoutCount r = Z.of_nat (length l) /\
    benchmarksMet r = Some (getBenchmarkStatus c) /\
    trend r = calculateTrend ls now userId (score r) /\
    periodData r = getPeriodComparisons ls now userId (score r).
Proof.
  intros Hc. unfold computed, computedIndex. fold components_of. rewrite Hc.
  simpl. eexists. split; [reflexivity|]. simpl. repeat split.
Qed.

(** X12: [calculateIndex] either returns the default index and leaves the
    store as it was, or stores what it returns, so that [getCurrentIndex] of
    the same user gives the returned index; in both cases the workout history
    and whatever is stored for other users are unchanged. *)
Theorem X12_calculateIndex_stores_its_result ls now userId :
  let r := fst (index ls now userId) in
  let ls' := snd (index ls now userId) in
  ((r = getDefaultIndex now /\ ls' = ls) \/ getCurrentIndex ls' userId = Some r) /\
  ls_workoutHistory ls' = ls_workoutHistory ls /\
  (forall other, other <> userId ->
     getCurrentIndex ls' other = getCurrentIndex ls other /\
     ls_history ls' !! other = ls_history ls !! other).
Proof.
  cbv zeta. destruct (index_cases ls now userId) as [-> | (l & c & _ & _ & Hc & Hi)].
  { simpl. split; [now left|]. split; [reflexivity|]. now intros other _. }
  destruct (computed_shape ls now userId l c Hc) as (r & Hr & _).
  rewrite Hr in Hi.
  assert (Hidx : index ls now userId =
                 (r, snd (saveToHistory toDateString
                            (snd (saveCurrentIndex ls userId r)) now userId r)))
    by congruence.
  rewrite Hidx. cbn [fst snd].
  destruct (saveToHistory_untouched toDateString
              (snd (saveCurrentIndex ls userId r)) now userId r) as (Hw & Hcur & Hh).
  unfold getCurrentIndex. rewrite Hw, Hcur. split; [|split].
  - right. simpl. apply lookup_insert_eq.
  - reflexivity.
  - intros other Hne. rewrite (Hh other Hne). simpl.
    split; [now apply lookup_insert_ne | reflexivity].
Qed.

(** X13: when [calculateIndex] computes a result (the history passes the
    validation and holds no [null]), the history key holds an array or
    nothing, and the entries stored for the day of the call are older than
    the call, the snapshot of the result is in the persisted history
    afterwards, stamped with the instant of the call. *)
Theorem X13_calculateIndex_appends_its_snapshot ls now userId l ws :
  getWorkoutHistory ls = Some l ->
  validateMetricInputs (Some l) = true ->
  mapM deref l = Ok ws ->
  ls_history ls !! userId <> Some HistoryCorrupt ->
  (forall e, In e (persistedHistory ls userId) ->
     Spec.dayOf toDateString e = toDateString now -> h_timestamp e < now) ->
  let r := fst (index ls now userId) in
  let ls' := snd (index ls now userId) in
  In (historyEntryOf r) (persistedHistory ls' userId) /\
  h_timestamp (historyEntryOf r) = now /\ h_score (historyEntryOf r) = score r.
Proof.
  intros Hl Hv Hws Hok Hold. cbv zeta.
  destruct (components_ok currentMonthStart previousMonthStart previousMonthEnd
              now l ws Hws) as [c Hc].
  destruct (computed_shape ls now userId l c Hc) as (r & Hr & _ & _ & _ & _ & Hts & _).
  unfold computed in Hr.
  unfold index. rewrite (index_of_valid _ _ _ _ _ _ _ _ Hl Hv), Hr. cbn [fst snd].
  split; [|split; [exact Hts | reflexivity]].
  rewrite persisted_after_save.
  assert (Hfst : fst (saveToHistory toDateString (snd (saveCurrentIndex ls userId r))
                        now userId r) = true).
  { unfold saveToHistory. simpl.
    destruct (ls_history ls !! userId) as [[|h]|]; [contradiction | |]; reflexivity. }
  rewrite Hfst.
  assert (Hp : persistedHistory (snd (saveCurrentIndex ls userId r)) userId =
               persistedHistory ls userId) by reflexivity.
  rewrite Hp. unfold updatedHistory.
  assert (Hts' : h_timestamp (historyEntryOf r) = now) by exact Hts.
  apply dedupe_keeps_latest.
  - apply List.filter_In. split; [apply in_or_app; right; now left|].
    rewrite Hts'. apply Z.ltb_lt. unfold MAX_HISTORY_DAYS, msPerDay. lia.
  - intros e' Hin Hsame. apply List.filter_In in Hin as [Hin _].
    apply in_app_or in Hin as [Hin | [<- | []]]; [right | now left].
    rewrite Hts'. apply Hold; [exact Hin|].
    rewrite Hsame. unfold Spec.dayOf. now rewrite Hts'.
Qed.

End EntryPointMore.

Lemma X13_witness :
  getWorkoutHistory emptyStorage = Some [] /\
  validateMetricInputs (Some []) = true /\
  mapM deref [] = Ok [] /\
  ls_history emptyStorage !! "default" <> Some HistoryCorrupt /\
  (forall e, In e (persistedHistory emptyStorage "default") ->
     Spec.dayOf utcDay e = utcDay exNow -> h_timestamp e < exNow) /\
  In (historyEntryOf (fst (exCalculateIndex emptyStorage exNow "default")))
    (persistedHistory (snd (exCalculateIndex emptyStorage exNow "default")) "default") /\
  h_timestamp (historyEntryOf (fst (exCalculateIndex emptyStorage exNow "default"))) =
    exNow /\
  h_score (historyEntryOf (fst (exCalculateIndex emptyStorage exNow "default"))) =
    score (fst (exCalculateIndex emptyStorage exNow "default")).
Proof.
  assert (H1 : getWorkoutHistory emptyStorage = Some []) by reflexivity.
  assert (H2 : validateMetricInputs (Some []) = true) by reflexivity.
  assert (H3 : mapM deref [] = Ok []) by reflexivity.
  assert (H4 : ls_history emptyStorage !! "default" <> Some HistoryCorrupt)
    by discriminate.
  assert (H5 : forall e, In e (persistedHistory emptyStorage "default") ->
                 Spec.dayOf utcDay e = utcDay exNow -> h_timestamp e < exNow)
    by (intros e []).
  repeat (split; [assumption|]).
  exact (X13_calculateIndex_appends_its_snapshot utcDay exCurrentMonthStart
           exPreviousMonthStart exPreviousMonthEnd emptyStorage exNow "default"
           [] [] H1 H2 H3 H4 H5).
Defined.

(** ** More on the trend and comparison analyzer *)

Lemma Qdiv_10 (x : Q) : (x / 10 == x * (1 # 10))%Q.
Proof. reflexivity. Qed.

(** [toFixed(1)] moves a number by at most 0.05. *)
Lemma toFixed1_close (x : Q) :
  (toFixed1 x - x <= 1 # 20)%Q /\ (x - toFixed1 x <= 1 # 20)%Q.
Proof.
  unfold toFixed1. destruct (Qle_bool 0 x).
  - pose proof (Qfloor_le (x * 10 + (1 # 2))) as Hle.
    pose proof (Qlt_floor (x * 10 + (1 # 2))) as Hlt.
    rewrite inject_Z_plus in Hlt. change (inject_Z 1) with 1%Q in Hlt.
    rewrite Qdiv_10. split; lra.
  - pose proof (Qfloor_le (- x * 10 + (1 # 2))) as Hle.
    pose proof (Qlt_floor (- x * 10 + (1 # 2))) as Hlt.
    rewrite inject_Z_plus in Hlt. change (inject_Z 1) with 1%Q in Hlt.
    rewrite Qdiv_10. split; lra.
Qed.

(** X14: a comparison that [compareWithPrevious] returns is coherent: the
    difference is the current score minus the previous one, the trend is
    "improving", "declining" or "stable" as the difference is positive,
    negative or zero, and the percentage is 0 when the previous score is not
    positive and otherwise within 0.05 of 100 * difference / previous. *)
Theorem X14_comparison_coherent ls now userId days c :
  compareWithPrevious ls now userId days = Some c ->
  cmp_difference c = cmp_current c - cmp_previous c /\
  (cmp_trend c = "improving" <-> 0 < cmp_difference c) /\
  (cmp_trend c = "declining" <-> cmp_difference c < 0) /\
  (cmp_trend c = "stable" <-> cmp_difference c = 0) /\
  (cmp_previous c <= 0 -> cmp_percentChange c = 0%Q) /\
  (0 < cmp_previous c ->
   let exact := (inject_Z (cmp_difference c) / inject_Z (cmp_previous c) * 100)%Q in
   (cmp_percentChange c - exact <= 1 # 20)%Q /\
   (exact - cmp_percentChange c <= 1 # 20)%Q).
Proof.
  unfold compareWithPrevious.
  destruct (length (getIndexHistory ls now userId (days * 2)) <? 2)%nat; [discriminate|].
  destruct (lastElem (previousEntriesOf now days
                        (getIndexHistory ls now userId (days * 2)))) as [prev|];
    [|discriminate].
  destruct (lastElem (getIndexHistory ls now userId (days * 2))) as [cur|];
    [|discriminate].
  intros [= <-]. cbn [cmp_difference cmp_current cmp_previous cmp_trend cmp_percentChange].
  set (diff := h_score cur - h_score prev).
  split; [reflexivity|].
  assert (Htrend :
    ((if 0 <? diff then "improving" else if diff <? 0 then "declining" else "stable")
       = "improving" <-> 0 < diff) /\
    ((if 0 <? diff then "improving" else if diff <? 0 then "declining" else "stable")
       = "declining" <-> diff < 0) /\
    ((if 0 <? diff then "improving" else if diff <? 0 then "declining" else "stable")
       = "stable" <-> diff = 0)).
  { destruct (Z.ltb_spec 0 diff); [|destruct (Z.ltb_spec diff 0)];
      repeat split; intros; try discriminate; try reflexivity; lia. }
  destruct Htrend as (H1 & H2 & H3).
  split; [exact H1|]. split; [exact H2|]. split; [exact H3|]. split.
  - intros Hle. destruct (Z.ltb_spec 0 (h_score prev)); [lia | reflexivity].
  - intros Hpos. destruct (Z.ltb_spec 0 (h_score prev)); [|lia].
    cbv zeta. apply toFixed1_close.
Qed.

Definition exWeekHistory : list HistoryEntry :=
  [exEntry (exNow - 10 * msPerDay) 60; exEntry (exNow - msPerDay) 66].

Definition exWeekComparison : Comparison :=
  Eval vm_compute in
    match compareWithPrevious (storageOfHistory "default" exWeekHistory)
            exNow "default" 7 with
    | Some c => c
    | None => {| cmp_current := 0; cmp_previous := 0; cmp_difference := 0;
                 cmp_percentChange := 0; cmp_trend := "" |}
    end.

Lemma X14_witness :
  compareWithPrevious (storageOfHistory "default" exWeekHistory) exNow "default" 7 =
    Some exWeekComparison /\
  cmp_current exWeekComparison = 66 /\ cmp_previous exWeekComparison = 60 /\
  cmp_difference exWeekComparison = cmp_current exWeekComparison -
                                    cmp_previous exWeekComparison /\
  (cmp_trend exWeekComparison = "improving" <-> 0 < cmp_difference exWeekComparison).
Proof.
  assert (H : compareWithPrevious (storageOfHistory "default" exWeekHistory)
                exNow "default" 7 = Some exWeekComparison) by (vm_compute; reflexivity).
  split; [exact H|]. split; [reflexivity|]. split; [reflexivity|].
  destruct (X14_comparison_coherent _ _ _ _ _ H) as (H1 & H2 & _).
  split; [exact H1 | exact H2].
Defined.

Lemma lastElem_In {A} (l : list A) x : lastElem l = Some x -> In x l.
Proof.
  unfold lastElem. induction l as [|y l IH]; simpl; [discriminate|].
  destruct l as [|z l]; simpl in *.
  - intros [= <-]. now left.
  - intros H. right. now apply IH.
Qed.

Lemma lastElem_latest (l : list HistoryEntry) x :
  StronglySorted (fun a b => h_timestamp a <= h_timestamp b) l ->
  lastElem l = Some x ->
  forall e, In e l -> h_timestamp e <= h_timestamp x.
Proof.
  unfold lastElem. induction 1 as [|y l Hs IH Hall]; simpl; [discriminate|].
  destruct l as [|z l].
  - simpl. intros [= <-] e [<- | []]. lia.
  - intros Hlast e [<- | Hin].
    + assert (Hx : In x (z :: l)) by now apply lastElem_In.
      exact (proj1 (List.Forall_forall _ _) Hall x Hx).
    + now apply IH.
Qed.

(** X15: on a persisted history in ascending order of timestamp, which is
    what every save leaves, [compareWithPrevious] compares the score of the
    latest loaded entry with the score of the latest loaded entry that is
    before [now - days]. *)
Theorem X15_comparison_takes_latest_entries ls now userId days c :
  StronglySorted (fun a b => h_timestamp a <= h_timestamp b)
    (persistedHistory ls userId) ->
  compareWithPrevious ls now userId days = Some c ->
  let loaded := getIndexHistory ls now userId (days * 2) in
  exists cur prev,
    In cur loaded /\ In prev loaded /\
    cmp_current c = h_score cur /\ cmp_previous c = h_score prev /\
    (forall e, In e loaded -> h_timestamp e <= h_timestamp cur) /\
    h_timestamp prev < now - days * msPerDay /\
    (forall e, In e loaded -> h_timestamp e < now - days * msPerDay ->
       h_timestamp e <= h_timestamp prev).
Proof.
  intros Hsorted. unfold compareWithPrevious.
  pose proof (getIndexHistory_sorted ls now userId (days * 2) Hsorted) as Hs.
  set (loaded := getIndexHistory ls now userId (days * 2)) in *.
  destruct (length loaded <? 2)%nat; [discriminate|].
  destruct (lastElem (previousEntriesOf now days loaded)) as [prev|] eqn:Ep;
    [|discriminate].
  destruct (lastElem loaded) as [cur|] eqn:Ec; [|discriminate].
  intros [= <-]. cbv zeta. simpl.
  assert (Hps : StronglySorted (fun a b => h_timestamp a <= h_timestamp b)
                  (previousEntriesOf now days loaded))
    by (now apply filter_strongly_sorted).
  pose proof (lastElem_In _ _ Ep) as Hprev.
  unfold previousEntriesOf in Hprev. apply List.filter_In in Hprev as [Hprev Hcut].
  exists cur, prev. split; [now apply lastElem_In|]. split; [exact Hprev|].
  split; [reflexivity|]. split; [reflexivity|]. split; [|split].
  - now apply lastElem_latest.
  - now apply Z.ltb_lt.
  - intros e He Hlt. apply (lastElem_latest _ _ Hps Ep).
    unfold previousEntriesOf. apply List.filter_In. split; [exact He|].
    now apply Z.ltb_lt.
Qed.

Lemma X15_witness :
  StronglySorted (fun a b => h_timestamp a <= h_timestamp b)
    (persistedHistory (storageOfHistory "default" exWeekHistory) "default") /\
  compareWithPrevious (storageOfHistory "default" exWeekHistory) exNow "default" 7 =
    Some exWeekComparison /\
  exists cur prev,
    In cur (getIndexHistory (storageOfHistory "default" exWeekHistory) exNow "default" (7 * 2)) /\
    In prev (getIndexHistory (storageOfHistory "default" exWeekHistory) exNow "default" (7 * 2)) /\
    cmp_current exWeekComparison = h_score cur /\
    cmp_previous exWeekComparison = h_score prev /\
    (forall e,
       In e (getIndexHistory (storageOfHistory "default" exWeekHistory) exNow "default" (7 * 2)) ->
       h_timestamp e <= h_timestamp cur) /\
    h_timestamp prev < exNow - 7 * msPerDay /\
    (forall e,
       In e (getIndexHistory (storageOfHistory "default" exWeekHistory) exNow "default" (7 * 2)) ->
       h_timestamp e < exNow - 7 * msPerDay -> h_timestamp e <= h_timestamp prev).
Proof.
  assert (H1 : StronglySorted (fun a b => h_timestamp a <= h_timestamp b)
                 (persistedHistory (storageOfHistory "default" exWeekHistory) "default")).
  { change (persistedHistory (storageOfHistory "default" exWeekHistory) "default")
      with exWeekHistory.
    repeat constructor. simpl. unfold msPerDay. lia. }
  assert (H2 : compareWithPrevious (storageOfHistory "default" exWeekHistory)
                 exNow "default" 7 = Some exWeekComparison) by (vm_compute; reflexivity).
  split; [exact H1|]. split; [exact H2|].
  exact (X15_comparison_takes_latest_entries _ _ _ _ _ H1 H2).
Defined.

Lemma fold_add_bounds (l : list Z) (a b acc : Z) :
  (forall x, In x l -> a <= x <= b) ->
  a * Z.of_nat (length l) + acc <= fold_left Z.add l acc <=
  b * Z.of_nat (length l) + acc.
Proof.
  revert acc. induction l as [|x l IH]; intros acc H; simpl length; simpl fold_left.
  - lia.
  - assert (Hx : a <= x <= b) by (apply H; now left).
    assert (Hl : forall y, In y l -> a <= y <= b) by (intros y Hy; apply H; now right).
    specialize (IH (acc + x) Hl). lia.
Qed.

Lemma average_bounds (l : list Z) (a b : Z) :
  l <> [] -> (forall x, In x l -> a <= x <= b) ->
  (inject_Z a <= average l)%Q /\ (average l <= inject_Z b)%Q.
Proof.
  intros Hne H. unfold average, sumZ.
  pose proof (fold_add_bounds l a b 0 H) as [Hlo Hhi].
  assert (Hlen : (0 < inject_Z (Z.of_nat (length l)))%Q).
  { change 0%Q with (inject_Z 0). rewrite <- Zlt_Qlt.
    destruct l; [contradiction | simpl; lia]. }
  split.
  - apply Qle_shift_div_l; [exact Hlen|].
    rewrite <- inject_Z_mult, <- Zle_Qle. lia.
  - apply Qle_shift_div_r; [exact Hlen|].
    rewrite <- inject_Z_mult, <- Zle_Qle. lia.
Qed.

Lemma In_skipn_list {A} (n : nat) (l : list A) x : In x (skipn n l) -> In x l.
Proof.
  intros H. rewrite <- (firstn_skipn n l). apply in_or_app. now right.
Qed.

Lemma In_firstn_list {A} (n : nat) (l : list A) x : In x (firstn n l) -> In x l.
Proof.
  intros H. rewrite <- (firstn_skipn n l). apply in_or_app. now left.
Qed.

(** X16: [calculateTrend] returns "stable" when fewer than three entries
    are loaded from the last 14 days, and also when all the loaded scores lie
    within a band of five points: neither average can then leave the band. *)
Theorem X16_trend_stable_within_band ls now userId currentScore a :
  let history := getIndexHistory ls now userId 14 in
  (length history < 3)%nat \/
  (forall e, In e history -> a <= h_score e <= a + 5) ->
  calculateTrend ls now userId currentScore = "stable".
Proof.
  intros history H. unfold calculateTrend. fold history.
  destruct (Nat.ltb_spec (length history) 3) as [Hlt|Hge]; [reflexivity|].
  destruct H as [H|H]; [lia|].
  set (recent := map h_score (sliceLast 5 history)).
  set (older := map h_score (sliceFirst (Nat.max 1 (length history - 5)) history)).
  assert (Hr : (inject_Z a <= average recent)%Q /\ (average recent <= inject_Z (a + 5))%Q).
  { apply average_bounds.
    - intros E. apply (f_equal (@length Z)) in E. unfold recent in E.
      rewrite length_map in E. unfold sliceLast in E. rewrite length_skipn in E.
      simpl in E. lia.
    - intros x Hx. unfold recent in Hx. apply in_map_iff in Hx as (e & <- & He).
      apply H. unfold sliceLast in He. now apply In_skipn_list in He. }
  assert (Ho : (inject_Z a <= average older)%Q /\ (average older <= inject_Z (a + 5))%Q).
  { apply average_bounds.
    - intros E. apply (f_equal (@length Z)) in E. unfold older in E.
      rewrite length_map in E. unfold sliceFirst in E. rewrite length_firstn in E.
      simpl in E. lia.
    - intros x Hx. unfold older in Hx. apply in_map_iff in Hx as (e & <- & He).
      apply H. unfold sliceFirst in He. now apply In_firstn_list in He. }
  destruct Hr as [Hr1 Hr2], Ho as [Ho1 Ho2].
  rewrite inject_Z_plus in Hr2, Ho2.
  change (inject_Z 5) with 5%Q in Hr2, Ho2.
  assert (E1 : Qltb 5 (average recent - average older) = false)
    by (apply Qltb_ge; lra).
  assert (E2 : Qltb (average recent - average older) (-5) = false)
    by (apply Qltb_ge; lra).
  now rewrite E1, E2.
Qed.

Definition exBandHistory : list HistoryEntry :=
  [exEntry (exNow - 3 * msPerDay) 60; exEntry (exNow - 2 * msPerDay) 62;
   exEntry (exNow - msPerDay) 65].

Lemma X16_witness :
  (let history := getIndexHistory (storageOfHistory "default" exBandHistory)
                    exNow "default" 14 in
   (length history < 3)%nat \/
   (forall e, In e history -> 60 <= h_score e <= 60 + 5)) /\
  calculateTrend (storageOfHistory "default" exBandHistory) exNow "default" 62 = "stable".
Proof.
  assert (H : let history := getIndexHistory (storageOfHistory "default" exBandHistory)
                               exNow "default" 14 in
              (length history < 3)%nat \/
              (forall e, In e history -> 60 <= h_score e <= 60 + 5)).
  { right. intros e He.
    change (In e exBandHistory) in He. simpl in He.
    destruct He as [<- | [<- | [<- | []]]]; simpl; lia. }
  split; [exact H|].
  exact (X16_trend_stable_within_band _ exNow "default" 62 60 H).
Defined.

(** ** More on the validation and the scorers *)

Lemma lastElem_snoc {A} (l : list A) x : lastElem (l ++ [x])%list = Some x.
Proof.
  unfold lastElem. rewrite map_app. simpl. apply last_last.
Qed.

(** X17: [validateMetricInputs] looks at the last record only: whatever
    precedes it, [null] elements and records without calories or date
    included, does not change the verdict. *)
Theorem X17_validation_reads_last_record_only
    (l : list (option Workout)) (w : option Workout) :
  validateMetricInputs (Some (l ++ [w])%list) = validateMetricInputs (Some [w]).
Proof.
  unfold validateMetricInputs.
  destruct (l ++ [w])%list as [|o l'] eqn:E.
  - now destruct l.
  - rewrite <- E, lastElem_snoc. reflexivity.
Qed.

Lemma sliceLast_app {A} (n : nat) (p l : list A) :
  (n <= length l)%nat -> sliceLast n (p ++ l)%list = sliceLast n l.
Proof.
  intros H. unfold sliceLast. rewrite length_app, skipn_app.
  rewrite skipn_all2 by lia. simpl. f_equal. lia.
Qed.

(** X18: [calculateStandardizedPerformance] and
    [calculateStandardizedIntensity] depend on the ten most recent records
    only: records that precede ten others, [null] ones included, change
    neither score. *)
Theorem X18_performance_and_intensity_read_last_ten
    (p l : list (option Workout)) :
  (10 <= length l)%nat ->
  calculateStandardizedPerformance (p ++ l)%list = calculateStandardizedPerformance l /\
  calculateStandardizedIntensity (p ++ l)%list = calculateStandardizedIntensity l.
Proof.
  intros H. unfold calculateStandardizedPerformance, calculateStandardizedIntensity.
  rewrite (sliceLast_app 10 p l H).
  destruct l as [|o l]; [simpl in H; lia|].
  destruct (p ++ o :: l)%list as [|o' l'] eqn:E; [now destruct p|].
  split; reflexivity.
Qed.

Lemma X18_witness :
  (10 <= length (repeat (Some exSeniorWorkout) 10))%nat /\
  calculateStandardizedPerformance ([None] ++ repeat (Some exSeniorWorkout) 10)%list =
    calculateStandardizedPerformance (repeat (Some exSeniorWorkout) 10) /\
  calculateStandardizedIntensity ([None] ++ repeat (Some exSeniorWorkout) 10)%list =
    calculateStandardizedIntensity (repeat (Some exSeniorWorkout) 10).
Proof.
  assert (H : (10 <= length (repeat (Some exSeniorWorkout) 10))%nat)
    by (simpl; lia).
  split; [exact H|].
  exact (X18_performance_and_intensity_read_last_ten [None] _ H).
Defined.

Lemma calculateTrend_history ls1 ls2 now userId s1 s2 :
  ls_history ls1 !! userId = ls_history ls2 !! userId ->
  calculateTrend ls1 now userId s1 = calculateTrend ls2 now userId s2.
Proof.
  intros H. unfold calculateTrend, getIndexHistory. now rewrite H.
Qed.

Lemma compareWithPrevious_history ls1 ls2 now userId days :
  ls_history ls1 !! userId = ls_history ls2 !! userId ->
  compareWithPrevious ls1 now userId days = compareWithPrevious ls2 now userId days.
Proof.
  intros H. unfold compareWithPrevious, getIndexHistory. now rewrite H.
Qed.

Section ResultFacts.

Variable toDateString : Z -> Z.
Variable currentMonthStart : Z -> Z.
Variable previousMonthStart : Z -> Z.
Variable previousMonthEnd : Z -> Z.

Let components_of :=
  calculateStandardizedComponents currentMonthStart previousMonthStart previousMonthEnd.
Let computed :=
  computedIndex toDateString currentMonthStart previousMonthStart previousMonthEnd.
Let index :=
  calculateIndex toDateString currentMonthStart previousMonthStart previousMonthEnd.



(** X20: the trend and the period comparisons of a computed result are
    read from the snapshots stored before the call: two stores that hold the
    same history for the user give the same trend and the same comparisons,
    whatever workouts they hold. *)
Theorem X20_trend_reads_stored_history_only ls1 ls2 now userId l1 l2 r1 r2 ls1' ls2' :
  ls_history ls1 !! userId = ls_history ls2 !! userId ->
  computed ls1 now userId l1 = Ok (r1, ls1') ->
  computed ls2 now userId l2 = Ok (r2, ls2') ->
  trend r1 = trend r2 /\ periodData r1 = periodData r2.
Proof.
  intros H. unfold computed, computedIndex.
  destruct (calculateStandardizedComponents _ _ _ now l1) as [c1|]; simpl;
    [|discriminate].
  destruct (calculateStandardizedComponents _ _ _ now l2) as [c2|]; simpl;
    [|discriminate].
  intros [= <- _] [= <- _]. simpl. split.
  - now apply calculateTrend_history.
  - unfold getPeriodComparisons.
    now rewrite (compareWithPrevious_history ls1 ls2 now userId 7 H),
                (compareWithPrevious_history ls1 ls2 now userId 30 H).
Qed.

End ResultFacts.

Definition exComputedPair (ls : LocalStorage) (l : list (option Workout))
    : IndexData * LocalStorage :=
  match exComputedIndex ls exNow "default" l with
  | Ok r => r
  | Throw => (getDefaultIndex exNow, ls)
  end.

Lemma X20_witness :
  ls_history emptyStorage !! "default" =
    ls_history (storageOfWorkouts [Some exSeniorWorkout]) !! "default" /\
  exComputedIndex emptyStorage exNow "default" [] =
    Ok (fst (exComputedPair emptyStorage []), snd (exComputedPair emptyStorage [])) /\
  exComputedIndex (storageOfWorkouts [Some exSeniorWorkout]) exNow "default"
      [Some exSeniorWorkout] =
    Ok (fst (exComputedPair (storageOfWorkouts [Some exSeniorWorkout])
               [Some exSeniorWorkout]),
        snd (exComputedPair (storageOfWorkouts [Some exSeniorWorkout])
               [Some exSeniorWorkout])) /\
  trend (fst (exComputedPair emptyStorage [])) =
    trend (fst (exComputedPair (storageOfWorkouts [Some exSeniorWorkout])
                  [Some exSeniorWorkout])) /\
  periodData (fst (exComputedPair emptyStorage [])) =
    periodData (fst (exComputedPair (storageOfWorkouts [Some exSeniorWorkout])
                       [Some exSeniorWorkout])).
Proof.
  assert (H1 : ls_history emptyStorage !! "default" =
               ls_history (storageOfWorkouts [Some exSeniorWorkout]) !! "default")
    by reflexivity.
  assert (H2 : exComputedIndex emptyStorage exNow "default" [] =
               Ok (fst (exComputedPair emptyStorage []),
                   snd (exComputedPair emptyStorage []))) by reflexivity.
  assert (H3 : exComputedIndex (storageOfWorkouts [Some exSeniorWorkout]) exNow
                 "default" [Some exSeniorWorkout] =
               Ok (fst (exComputedPair (storageOfWorkouts [Some exSeniorWorkout])
                          [Some exSeniorWorkout]),
                   snd (exComputedPair (storageOfWorkouts [Some exSeniorWorkout])
                          [Some exSeniorWorkout]))) by (vm_compute; reflexivity).
  split; [exact H1|]. split; [exact H2|]. split; [exact H3|].
  exact (X20_trend_reads_stored_history_only utcDay exCurrentMonthStart
           exPreviousMonthStart exPreviousMonthEnd _ _ exNow "default" _ _ _ _ _ _
           H1 H2 H3).
Defined.

Lemma round_band (m p : Q) :
  (100 <= m)%Q -> (0.45 <= p)%Q -> (p <= 0.85)%Q ->
  (0.445 * m <= inject_Z (Math_round (m * p)))%Q /\
  (inject_Z (Math_round (m * p)) <= 0.855 * m)%Q.
Proof.
  intros Hm Hlo Hhi. unfold Math_round.
  assert (Hpos : (0 < m)%Q) by lra.
  assert (H1 : (m * 0.45 <= m * p)%Q) by (apply Qmult_le_l; assumption).
  assert (H2 : (m * p <= m * 0.85)%Q) by (apply Qmult_le_l; assumption).
  set (x := (m * p)%Q) in *.
  pose proof (Qfloor_le (x + (1 # 2))) as Hle.
  pose proof (Qlt_floor (x + (1 # 2))) as Hlt.
  rewrite inject_Z_plus in Hlt. change (inject_Z 1) with 1%Q in Hlt.
  split; lra.
Qed.

(** X21: for a subject whose maximum heart rate [220 - age] is at least 100
    (the default age 25 gives 195), the heart rate that [estimateHeartRate]
    returns is between 44.5% and 85.5% of that maximum, so that a record
    without a measured heart rate never gets the zone score 100. *)
Theorem X21_estimated_heart_rate_band (w : Workout) :
  let m := (220 - orQ (w_age w) 25)%Q in
  let pct := (inject_Z (estimateHeartRate w) / m * 100)%Q in
  (100 <= m)%Q ->
  (44.5 <= pct)%Q /\ (pct <= 85.5)%Q /\ (getHeartRateZoneScore pct <= 90)%Q.
Proof.
  intros m pct Hm.
  assert (Hpos : (0 < m)%Q) by lra.
  assert (Hband : (0.445 * m <= inject_Z (estimateHeartRate w))%Q /\
                  (inject_Z (estimateHeartRate w) <= 0.855 * m)%Q).
  { unfold estimateHeartRate. fold m.
    repeat match goal with
    | |- context [String.eqb ?a ?b] => destruct (String.eqb a b)
    | |- context [Qltb ?a ?b] => destruct (Qltb a b)
    end; apply round_band; try exact Hm; discriminate. }
  destruct Hband as [Hlo Hhi].
  assert (Hpct : (pct == inject_Z (estimateHeartRate w) * 100 / m)%Q).
  { unfold pct. field. lra. }
  assert (H1 : (44.5 <= pct)%Q).
  { rewrite Hpct. apply Qle_shift_div_l; [exact Hpos | lra]. }
  assert (H2 : (pct <= 85.5)%Q).
  { rewrite Hpct. apply Qle_shift_div_r; [exact Hpos | lra]. }
  split; [exact H1|]. split; [exact H2|].
  destruct (zone_score_cases pct) as
    [[? ->] | [(? & ? & ->) | [(? & ? & ->) | [(? & ? & ->) | [(? & ? & ->) | [? ->]]]]]];
    try discriminate.
  exfalso. lra.
Qed.

Lemma X21_witness :
  (100 <= 220 - orQ (w_age exSeniorWorkout) 25)%Q /\
  (44.5 <= inject_Z (estimateHeartRate exSeniorWorkout) /
           (220 - orQ (w_age exSeniorWorkout) 25) * 100)%Q /\
  (inject_Z (estimateHeartRate exSeniorWorkout) /
   (220 - orQ (w_age exSeniorWorkout) 25) * 100 <= 85.5)%Q /\
  (getHeartRateZoneScore
     (inject_Z (estimateHeartRate exSeniorWorkout) /
      (220 - orQ (w_age exSeniorWorkout) 25) * 100) <= 90)%Q.
Proof.
  assert (H : (100 <= 220 - orQ (w_age exSeniorWorkout) 25)%Q) by discriminate.
  split; [exact H|].
  exact (X21_estimated_heart_rate_band exSeniorWorkout H).
Defined.

(** ** Letter case of activity and gender *)

Lemma lowerAscii_idempotent (c : ascii) : lowerAscii (lowerAscii c) = lowerAscii c.
Proof.
  destruct c as [[] [] [] [] [] [] [] []]; reflexivity.
Qed.

Lemma toLowerCase_idempotent (s : string) : toLowerCase (toLowerCase s) = toLowerCase s.
Proof.
  induction s as [|c s IH]; simpl; [reflexivity|].
  now rewrite lowerAscii_idempotent, IH.
Qed.

Lemma orS_lower (a : option string) (d d' : string) :
  toLowerCase d' = toLowerCase d ->
  toLowerCase (orS (option_map toLowerCase a) d') = toLowerCase (orS a d).
Proof.
  intros H. destruct a as [[|c s]|]; simpl; try exact H.
  now rewrite lowerAscii_idempotent, toLowerCase_idempotent.
Qed.

(** A record with its activity, workout type, type and gender in lower
    case. *)
Definition lowerCaseNames (w : Workout) : Workout := {|
  w_date := w_date w;
  w_timestamp := w_timestamp w;
  w_calories := w_calories w;
  w_caloriesBurned := w_caloriesBurned w;
  w_activity := option_map toLowerCase (w_activity w);
  w_workoutType := option_map toLowerCase (w_workoutType w);
  w_type := option_map toLowerCase (w_type w);
  w_heartRate := w_heartRate w;
  w_age := w_age w;
  w_weight := w_weight w;
  w_gender := option_map toLowerCase (w_gender w);
  w_duration := w_duration w
|}.

Lemma target_lower (w : Workout) :
  getStandardizedTargetCalories (lowerCaseNames w) = getStandardizedTargetCalories w.
Proof.
  unfold getStandardizedTargetCalories, targetAdjustment, lowerCaseNames.
  cbn [w_age w_weight w_gender w_duration w_activity w_workoutType].
  rewrite (orS_lower (w_gender w) "male" "male") by reflexivity.
  rewrite (orS_lower (w_activity w) (orS (w_workoutType w) "running")
             (orS (option_map toLowerCase (w_workoutType w)) "running"))
    by (now apply orS_lower).
  reflexivity.
Qed.

Lemma estimate_lower (w : Workout) :
  estimateHeartRate (lowerCaseNames w) = estimateHeartRate w.
Proof.
  unfold estimateHeartRate, lowerCaseNames.
  cbn [w_age w_duration w_activity w_workoutType].
  rewrite (orS_lower (w_activity w) (orS (w_workoutType w) "running")
             (orS (option_map toLowerCase (w_workoutType w)) "running"))
    by (now apply orS_lower).
  reflexivity.
Qed.

Lemma typeKey_lower (w : Workout) :
  workoutTypeKey (lowerCaseNames w) = workoutTypeKey w.
Proof.
  unfold workoutTypeKey, lowerCaseNames. cbn [w_activity w_workoutType w_type].
  apply orS_lower, orS_lower, orS_lower. reflexivity.
Qed.

Section MapInvariance.

Variable f : Workout -> Workout.

Lemma mapM_deref_map (l : list (option Workout)) :
  mapM deref (map (option_map f) l) =
  let* ws := mapM deref l in Ok (map f ws).
Proof.
  induction l as [|[w|] l IH]; simpl; try reflexivity.
  rewrite IH. now destruct (mapM deref l).
Qed.

Lemma filter_map_inv (g : Workout -> bool) (ws : list Workout) :
  (forall w, g (f w) = g w) ->
  List.filter g (map f ws) = map f (List.filter g ws).
Proof.
  intros Hg. induction ws as [|w ws IH]; simpl; [reflexivity|].
  rewrite Hg. destruct (g w); simpl; now rewrite IH.
Qed.

Lemma fold_map_inv {B} (g : B -> Workout -> B) (ws : list Workout) (b : B) :
  (forall b w, g b (f w) = g b w) ->
  fold_left g (map f ws) b = fold_left g ws b.
Proof.
  intros Hg. revert b. induction ws as [|w ws IH]; intros b; simpl; [reflexivity|].
  now rewrite Hg, IH.
Qed.

Lemma average_inv (ws : list Workout) :
  (forall w, actualCalories (f w) = actualCalories w) ->
  getAverageCalories (map f ws) = getAverageCalories ws.
Proof.
  intros Hf. unfold getAverageCalories. destruct ws as [|w ws]; [reflexivity|].
  cbn [map]. change (f w :: map f ws) with (map f (w :: ws)).
  rewrite fold_map_inv by (intros b w'; now rewrite Hf). now rewrite length_map.
Qed.

End MapInvariance.

Section CaseInsensitive.

Variable currentMonthStart : Z -> Z.
Variable previousMonthStart : Z -> Z.
Variable previousMonthEnd : Z -> Z.

Let lower := map (option_map lowerCaseNames).

Lemma consistency_lower now l :
  calculateStandardizedConsistency now (lower l) = calculateStandardizedConsistency now l.
Proof.
  unfold calculateStandardizedConsistency, lower. rewrite mapM_deref_map.
  destruct (mapM deref l) as [ws|]; simpl; [|reflexivity].
  unfold recentWorkouts. rewrite filter_map_inv by reflexivity.
  now rewrite length_map.
Qed.

Lemma performance_lower l :
  calculateStandardizedPerformance (lower l) = calculateStandardizedPerformance l.
Proof.
  unfold calculateStandardizedPerformance, lower. destruct l as [|o l]; [reflexivity|].
  cbn [map].
  change (option_map lowerCaseNames o :: map (option_map lowerCaseNames) l)
    with (map (option_map lowerCaseNames) (o :: l)).
  rewrite sliceLast_map, mapM_deref_map.
  destruct (mapM deref (sliceLast 10 (o :: l))) as [ws|]; simpl; [|reflexivity].
  rewrite fold_map_inv; [reflexivity|].
  intros b w. now rewrite target_lower.
Qed.

Lemma improvement_lower now l :
  calculateStandardizedImprovement currentMonthStart previousMonthStart
    previousMonthEnd now (lower l) =
  calculateStandardizedImprovement currentMonthStart previousMonthStart
    previousMonthEnd now l.
Proof.
  unfold calculateStandardizedImprovement, lower. rewrite length_map.
  destruct (length l <? 2)%nat; [reflexivity|].
  rewrite mapM_deref_map.
  destruct (mapM deref l) as [ws|]; [|reflexivity]. unfold bind.
  rewrite !filter_map_inv by reflexivity.
  rewrite !average_inv by reflexivity.
  match goal with
  | |- context [map _ (List.filter ?g ws)] => destruct (List.filter g ws)
  end; reflexivity.
Qed.

Lemma variety_lower now l :
  calculateStandardizedVariety now (lower l) = calculateStandardizedVariety now l.
Proof.
  unfold calculateStandardizedVariety, lower. rewrite mapM_deref_map.
  destruct (mapM deref l) as [ws|]; [|reflexivity]. unfold bind.
  unfold recentWorkouts. rewrite filter_map_inv by reflexivity.
  destruct (List.filter (dateAtLeast (thirtyDaysAgo now)) ws) as [|w ws'];
    [reflexivity|].
  cbn [map].
  change (lowerCaseNames w :: map lowerCaseNames ws')
    with (map lowerCaseNames (w :: ws')).
  rewrite map_map.
  rewrite (map_ext (fun x => workoutTypeKey (lowerCaseNames x)) workoutTypeKey)
    by apply typeKey_lower.
  cbn [map]. rewrite ?typeKey_lower. reflexivity.
Qed.

Lemma intensity_lower l :
  calculateStandardizedIntensity (lower l) = calculateStandardizedIntensity l.
Proof.
  unfold calculateStandardizedIntensity, lower. destruct l as [|o l]; [reflexivity|].
  cbn [map].
  change (option_map lowerCaseNames o :: map (option_map lowerCaseNames) l)
    with (map (option_map lowerCaseNames) (o :: l)).
  rewrite sliceLast_map, mapM_deref_map.
  destruct (mapM deref (sliceLast 10 (o :: l))) as [ws|]; simpl; [|reflexivity].
  rewrite fold_map_inv; [reflexivity|].
  intros b w. now rewrite estimate_lower.
Qed.

(** X22: the five scorers match activity, workout type and gender without
    regard to the case of their (ASCII) letters: writing them in lower case
    in every record changes no component. *)
Theorem X22_scoring_ignores_letter_case now (l : list (option Workout)) :
  calculateStandardizedComponents currentMonthStart previousMonthStart
    previousMonthEnd now (map (option_map lowerCaseNames) l) =
  calculateStandardizedComponents currentMonthStart previousMonthStart
    previousMonthEnd now l.
Proof.
  unfold calculateStandardizedComponents. fold lower.
  now rewrite consistency_lower, performance_lower, improvement_lower,
    variety_lower, intensity_lower.
Qed.

End CaseInsensitive.

(** ** The history modal *)

(** [showHistoryModal()]: the entries behind the lines of the alert, in the
    order of the lines, [history.slice(-10).reverse()] of the window of 30
    days of user ['default']; [None] when the window is empty and the alert
    says that there is no history yet.  The text of a line is made of the
    entry's timestamp, score and level. *)
Definition historyModalEntries (ls : LocalStorage) (now : Z) : option (list HistoryEntry) :=
  let history := getIndexHistory ls now "default" 30 in
  match history with
  | [] => None
  | _ => Some (rev (sliceLast 10 history))
  end.

Lemma StronglySorted_snoc {A} (R : A -> A -> Prop) (l : list A) x :
  StronglySorted R l -> List.Forall (fun y => R y x) l ->
  StronglySorted R (l ++ [x]).
Proof.
  induction 1 as [|y l Hs IH Hall]; intros Hx; simpl.
  - repeat constructor.
  - inversion Hx as [|? ? Hyx Hlx]; subst. constructor; [now apply IH|].
    apply List.Forall_app. split; [exact Hall | now constructor].
Qed.

Lemma rev_descending (l : list HistoryEntry) :
  StronglySorted (fun a b => h_timestamp a <= h_timestamp b) l ->
  StronglySorted (fun a b => h_timestamp b <= h_timestamp a) (rev l).
Proof.
  induction 1 as [|x l Hs IH Hall]; simpl; [constructor|].
  apply StronglySorted_snoc; [exact IH|].
  apply List.Forall_forall. intros y Hy. apply in_rev in Hy.
  exact (proj1 (List.Forall_forall _ _) Hall y Hy).
Qed.

Lemma skipn_strongly_sorted {A} (R : A -> A -> Prop) (n : nat) (l : list A) :
  StronglySorted R l -> StronglySorted R (skipn n l).
Proof.
  revert l. induction n as [|n IH]; intros l H; [exact H|].
  destruct l as [|x l]; [constructor|]. simpl. apply IH. now inversion H.
Qed.

Lemma StronglySorted_app_cross {A} (R : A -> A -> Prop) (l1 l2 : list A) :
  StronglySorted R (l1 ++ l2) ->
  forall a b, In a l1 -> In b l2 -> R a b.
Proof.
  induction l1 as [|x l1 IH]; simpl; intros H a b Ha Hb; [contradiction|].
  inversion H as [|? ? Hs Hall]; subst. destruct Ha as [<- | Ha].
  - apply (proj1 (List.Forall_forall _ _) Hall). apply in_or_app. now right.
  - now apply IH.
Qed.

(** X23: when the persisted history of user 'default' is in ascending
    order of timestamp, as every save leaves it, [showHistoryModal] lists at
    most ten entries, the latest first, and they are the latest ones of the
    window: no entry of the window that is left out is later than a listed
    one.  It reports that there is no history exactly when the window of 30
    days is empty. *)
Theorem X23_history_modal_lists_latest_first ls now :
  StronglySorted (fun a b => h_timestamp a <= h_timestamp b)
    (persistedHistory ls "default") ->
  match historyModalEntries ls now with
  | None => getIndexHistory ls now "default" 30 = []
  | Some shown =>
      (shown <> []) /\ (length shown <= 10)%nat /\
      StronglySorted (fun a b => h_timestamp b <= h_timestamp a) shown /\
      (forall e, In e shown -> In e (getIndexHistory ls now "default" 30)) /\
      (forall e x, In e (getIndexHistory ls now "default" 30) -> In x shown ->
         In e shown \/ h_timestamp e <= h_timestamp x)
  end.
Proof.
  intros Hsorted.
  pose proof (getIndexHistory_sorted ls now "default" 30 Hsorted) as Hs.
  unfold historyModalEntries.
  set (history := getIndexHistory ls now "default" 30) in *.
  assert (Hcase : history = [] \/ (0 < length history)%nat)
    by (destruct history; [now left | right; simpl; lia]).
  destruct Hcase as [-> | Hlen]; [reflexivity|].
  destruct history as [|h0 rest] eqn:E; [simpl in Hlen; lia|].
  rewrite <- E in *. clear E h0 rest.
  unfold sliceLast. set (n := (length history - 10)%nat).
  split; [|split; [|split; [|split]]].
  - intros Hnil. apply (f_equal (@length HistoryEntry)) in Hnil.
    rewrite length_rev, length_skipn in Hnil. simpl in Hnil. lia.
  - rewrite length_rev, length_skipn. lia.
  - apply rev_descending. now apply skipn_strongly_sorted.
  - intros e He. apply in_rev in He. now apply In_skipn_list in He.
  - intros e x He Hx. apply in_rev in Hx.
    rewrite <- (firstn_skipn n history) in He, Hs.
    apply in_app_or in He as [He | He].
    + right. now apply (StronglySorted_app_cross _ _ _ Hs).
    + left. now apply in_rev in He.
Qed.

Lemma X23_witness :
  StronglySorted (fun a b => h_timestamp a <= h_timestamp b)
    (persistedHistory (storageOfHistory "default" exBandHistory) "default") /\
  match historyModalEntries (storageOfHistory "default" exBandHistory) exNow with
  | None => getIndexHistory (storageOfHistory "default" exBandHistory) exNow "default" 30 = []
  | Some shown =>
      (shown <> []) /\ (length shown <= 10)%nat /\
      StronglySorted (fun a b => h_timestamp b <= h_timestamp a) shown /\
      (forall e, In e shown ->
         In e (getIndexHistory (storageOfHistory "default" exBandHistory) exNow "default" 30)) /\
      (forall e x,
         In e (getIndexHistory (storageOfHistory "default" exBandHistory) exNow "default" 30) ->
         In x shown -> In e shown \/ h_timestamp e <= h_timestamp x)
  end.
Proof.
  assert (H : StronglySorted (fun a b => h_timestamp a <= h_timestamp b)
                (persistedHistory (storageOfHistory "default" exBandHistory) "default")).
  { change (persistedHistory (storageOfHistory "default" exBandHistory) "default")
      with exBandHistory.
    repeat constructor; simpl; unfold msPerDay; lia. }
  split; [exact H|].
  exact (X23_history_modal_lists_latest_first _ exNow H).
Defined.

(** ** More on the comparison and the trend *)

Lemma lastElem_None {A} (l : list A) : lastElem l = None -> l = [].
Proof.
  destruct l as [|x l] using rev_ind; [reflexivity|].
  now rewrite lastElem_snoc.
Qed.

(** X24: [compareWithPrevious] returns [null] exactly when fewer than two
    entries are loaded from the last [2 * days] days or none of the loaded
    entries is before [now - days]. *)
Theorem X24_comparison_null_iff ls now userId days :
  let loaded := getIndexHistory ls now userId (days * 2) in
  compareWithPrevious ls now userId days = None <->
  (length loaded < 2)%nat \/ previousEntriesOf now days loaded = [].
Proof.
  intros loaded. unfold compareWithPrevious. fold loaded.
  destruct (Nat.ltb_spec (length loaded) 2) as [Hlt|Hge].
  { split; [now left | reflexivity]. }
  destruct (lastElem (previousEntriesOf now days loaded)) as [prev|] eqn:Ep.
  - destruct (lastElem loaded) as [cur|] eqn:Ec.
    + split; [discriminate|]. intros [H|H]; [lia|].
      rewrite H in Ep. discriminate.
    + apply lastElem_None in Ec. rewrite Ec in Hge. simpl in Hge. lia.
  - split; [|reflexivity]. intros _. right. now apply lastElem_None.
Qed.

(** X25: with three, four or five entries loaded from the last 14 days
    the two averages of [calculateTrend] overlap: the trend compares the
    average of all the loaded scores with the score of the first loaded
    entry. *)
Theorem X25_trend_of_short_history ls now userId currentScore first rest :
  getIndexHistory ls now userId 14 = first :: rest ->
  (2 <= length rest <= 4)%nat ->
  let diff := (average (map h_score (first :: rest)) - inject_Z (h_score first))%Q in
  (calculateTrend ls now userId currentScore = "improving" <-> (5 < diff)%Q) /\
  (calculateTrend ls now userId currentScore = "declining" <-> (diff < -5)%Q).
Proof.
  intros E Hlen diff. unfold calculateTrend. rewrite E.
  assert (E3 : (length (first :: rest) <? 3)%nat = false)
    by (apply Nat.ltb_ge; simpl; lia).
  rewrite E3.
  assert (Erecent : sliceLast 5 (first :: rest) = first :: rest).
  { unfold sliceLast. replace (length (first :: rest) - 5)%nat with 0%nat
      by (simpl; lia). reflexivity. }
  assert (Eolder : sliceFirst (Nat.max 1 (length (first :: rest) - 5)) (first :: rest)
                   = [first]).
  { replace (Nat.max 1 (length (first :: rest) - 5)) with 1%nat by (simpl; lia).
    reflexivity. }
  rewrite Erecent, Eolder.
  assert (Eavg : (average (map h_score [first]) == inject_Z (h_score first))%Q).
  { unfold average, sumZ. cbn [map fold_left length]. rewrite Z.add_0_l.
    change (inject_Z (Z.of_nat 1)) with 1%Q. unfold Qdiv.
    change (/ 1)%Q with 1%Q. ring. }
  set (r := average (map h_score (first :: rest))) in *.
  assert (Ed : (r - average (map h_score [first]) == diff)%Q)
    by (unfold diff; now rewrite Eavg).
  destruct (Qltb 5 (r - average (map h_score [first]))) eqn:E1;
    [apply Qltb_lt in E1 | apply Qltb_ge in E1]; rewrite Ed in E1.
  - split; split; intros H; try reflexivity; try discriminate; try exact E1.
    exfalso. lra.
  - destruct (Qltb (r - average (map h_score [first])) (-5)) eqn:E2;
      [apply Qltb_lt in E2 | apply Qltb_ge in E2]; rewrite Ed in E2.
    + split; split; intros H; try reflexivity; try discriminate; try exact E2.
      exfalso. lra.
    + split; split; intros H; try discriminate; exfalso; lra.
Qed.

Lemma X25_witness :
  getIndexHistory (storageOfHistory "default" exBandHistory) exNow "default" 14 =
    exEntry (exNow - 3 * msPerDay) 60 ::
    [exEntry (exNow - 2 * msPerDay) 62; exEntry (exNow - msPerDay) 65] /\
  (2 <= length [exEntry (exNow - 2 * msPerDay) 62; exEntry (exNow - msPerDay) 65] <= 4)%nat /\
  (calculateTrend (storageOfHistory "default" exBandHistory) exNow "default" 65 =
     "improving" <->
   (5 < average (map h_score exBandHistory) - inject_Z 60)%Q).
Proof.
  assert (H1 : getIndexHistory (storageOfHistory "default" exBandHistory) exNow
                 "default" 14 =
               exEntry (exNow - 3 * msPerDay) 60 ::
               [exEntry (exNow - 2 * msPerDay) 62; exEntry (exNow - msPerDay) 65])
    by reflexivity.
  assert (H2 : (2 <= length [exEntry (exNow - 2 * msPerDay) 62;
                             exEntry (exNow - msPerDay) 65] <= 4)%nat)
    by (simpl; lia).
  split; [exact H1|]. split; [exact H2|].
  exact (proj1 (X25_trend_of_short_history _ exNow "default" 65 _ _ H1 H2)).
Defined.

(** ** A history text that is not an array *)

Section CorruptHistory.

Variable toDateString : Z -> Z.
Variable currentMonthStart : Z -> Z.
Variable previousMonthStart : Z -> Z.
Variable previousMonthEnd : Z -> Z.

Let index :=
  calculateIndex toDateString currentMonthStart previousMonthStart previousMonthEnd.


End CorruptHistory.



(** ** The performance scorer on non-negative data *)










(** ** What an append keeps *)

(** X28: a successful [saveToHistory] loses no day: an entry stored before
    that is within the 90 days and is the latest of its calendar day, among
    the entries stored before and the new snapshot, is still persisted
    afterwards. *)
Theorem X28_append_keeps_latest_entries toDateString ls now userId d e :
  fst (saveToHistory toDateString ls now userId d) = true ->
  In e (persistedHistory ls userId) ->
  now - MAX_HISTORY_DAYS * msPerDay < h_timestamp e ->
  (forall e', In e' (persistedHistory ls userId) \/ e' = historyEntryOf d ->
     Spec.dayOf toDateString e' = Spec.dayOf toDateString e ->
     e' = e \/ h_timestamp e' < h_timestamp e) ->
  In e (persistedHistory (snd (saveToHistory toDateString ls now userId d)) userId).
Proof.
  intros Hok Hin Hkeep Hlatest.
  rewrite persisted_after_save, Hok. unfold updatedHistory.
  apply dedupe_keeps_latest.
  - apply List.filter_In. split; [apply in_or_app; now left | now apply Z.ltb_lt].
  - intros e' He' Hsame. apply List.filter_In in He' as [He' _].
    apply Hlatest; [|exact Hsame].
    apply in_app_or in He' as [He' | [<- | []]]; [now left | now right].
Qed.

Lemma X28_witness :
  fst (saveToHistory utcDay (storageOfHistory "default" exRecentHistory) exNow
         "default" (exIndexData exNow 70)) = true /\
  In (exEntry (exNow - msPerDay) 66)
    (persistedHistory (storageOfHistory "default" exRecentHistory) "default") /\
  exNow - MAX_HISTORY_DAYS * msPerDay < h_timestamp (exEntry (exNow - msPerDay) 66) /\
  In (exEntry (exNow - msPerDay) 66)
    (persistedHistory
       (snd (saveToHistory utcDay (storageOfHistory "default" exRecentHistory) exNow
               "default" (exIndexData exNow 70)))
       "default").
Proof.
  assert (H1 : fst (saveToHistory utcDay (storageOfHistory "default" exRecentHistory)
                      exNow "default" (exIndexData exNow 70)) = true) by reflexivity.
  assert (H2 : In (exEntry (exNow - msPerDay) 66)
                 (persistedHistory (storageOfHistory "default" exRecentHistory)
                    "default")).
  { change (persistedHistory (storageOfHistory "default" exRecentHistory) "default")
      with exRecentHistory. right. now left. }
  assert (H3 : exNow - MAX_HISTORY_DAYS * msPerDay <
               h_timestamp (exEntry (exNow - msPerDay) 66)) by reflexivity.
  split; [exact H1|]. split; [exact H2|]. split; [exact H3|].
  apply (X28_append_keeps_latest_entries utcDay _ exNow "default" _ _ H1 H2 H3).
  intros e' He' Hsame.
  change (persistedHistory (storageOfHistory "default" exRecentHistory) "default")
    with exRecentHistory in He'.
  destruct He' as [[<- | [<- | []]] | ->]; try (now left);
    vm_compute in Hsame; discriminate.
Defined.
